(** * message-push: the swap poller of [logic/graph_task.go]

    A shallow embedding of the polling task that fetches swap events from a
    GraphQL endpoint, formats them and pushes them to Bark endpoints, with
    the checkpoint it keeps in [app_config.json].

    Layout:
    - [Strconv]    : [strconv.ParseInt] / [strconv.Atoi] in base 10;
    - data         : [Swap], [Config], [contains];
    - [GoLibs]     : the library calls the code makes ([math/big], [time],
                     [encoding/json]) as an interface;
    - [FormatSwap] : the formatter, with Go's nil-pointer panics explicit;
    - the effectful part ([loadConfig], [saveConfig], [fetchSwaps],
      [sendNotification], [GraphTask]) in a state monad over [World];
    - [Legacy]     : the older variant of the same file ([storage.json]);
    - the vocabulary of the properties, [UrlEncode];
    - [NetURL]     : what [http.Get] requests for the string it is given
                     ([net/url]'s parsing and path escaping);
    - [Sample], [Examples] : a concrete instance of the interface and
                     example data, to run the model;
    - the properties, and in [Runs] the model run on the example data. *)

From Stdlib Require Import ZArith QArith List String Ascii Bool Lia DecimalString.
Import ListNotations.
Open Scope string_scope.
Open Scope Z_scope.

(* ===================================================================== *)
(** ** strconv *)
(* ===================================================================== *)

Module Strconv.

Inductive NumError := ErrSyntax | ErrRange.

Definition maxUint64 : Z := 2 ^ 64 - 1.
Definition maxInt64 : Z := 2 ^ 63 - 1.
Definition minInt64 : Z := - 2 ^ 63.

(** Value of a decimal digit byte, [None] for any other byte. *)
Definition digit (c : ascii) : option Z :=
  let n := Z.of_N (N_of_ascii c) in
  if (48 <=? n) && (n <=? 57) then Some (n - 48) else None.

(** The digit loop of [ParseUint] in base 10: a byte that is not a digit
    is a syntax error as soon as it is met, an overflow a range error as
    soon as it happens (the value is then [maxUint64]). *)
Fixpoint uintLoop (n : Z) (s : string) : Z * option NumError :=
  match s with
  | EmptyString => (n, None)
  | String c rest =>
      match digit c with
      | None => (0, Some ErrSyntax)
      | Some d =>
          if maxUint64 <? n * 10 + d then (maxUint64, Some ErrRange)
          else uintLoop (n * 10 + d) rest
      end
  end.

Definition ParseUint (s : string) : Z * option NumError :=
  match s with
  | EmptyString => (0, Some ErrSyntax)
  | _ => uintLoop 0 s
  end.

(** [strconv.ParseInt(s, 10, 64)]. *)
Definition ParseInt (s : string) : Z * option NumError :=
  match s with
  | EmptyString => (0, Some ErrSyntax)
  | String c rest =>
      let neg := Ascii.eqb c "-" in
      let body := if Ascii.eqb c "+" || neg then rest else s in
      match ParseUint body with
      | (_, Some ErrSyntax) => (0, Some ErrSyntax)
      | (un, _) =>
          if negb neg && (maxInt64 <? un) then (maxInt64, Some ErrRange)
          else if neg && (- minInt64 <? un) then (minInt64, Some ErrRange)
          else (if neg then - un else un, None)
      end
  end.

(** [strconv.Atoi] on a 64-bit platform: same result as [ParseInt]. *)
Definition Atoi (s : string) : Z * option NumError := ParseInt s.

End Strconv.

(* ===================================================================== *)
(** ** Data *)
(* ===================================================================== *)

Record Swap := mkSwap {
  ID : string;
  Sender : string;
  Recipient : string;
  Amount0 : string;
  Amount1 : string;
  SqrtPriceX96 : string;
  Liquidity : string;
  Tick : Z;
  BlockNumber : string;
  BlockTimestamp : string;
  TransactionHash : string;
  BtcPrice : string
}.

Record Config := mkConfig {
  BarkAPIURLs : list string;
  LastBlockNumber : string;
  CurrentTxHashes : list string
}.

(** The configuration [loadConfig] falls back to. *)
Definition defaultConfig : Config :=
  {| BarkAPIURLs :=
       ["https://api.day.app/iuizSoSLLvtMTZhhmuWetY/%E4%BA%A4%E6%98%93%E6%8F%90%E9%86%92/"];
     LastBlockNumber := "21612681";
     CurrentTxHashes :=
       ["0xccce6256453e517062bb4cfb74494a0bdb2fefa793f75d3d31cf041d76bf99fd"] |}.

(** The zero value of [Config], what [configData] holds before any load. *)
Definition zeroConfig : Config :=
  {| BarkAPIURLs := []; LastBlockNumber := ""; CurrentTxHashes := [] |}.

Fixpoint contains (slice : list string) (item : string) : bool :=
  match slice with
  | [] => false
  | s :: rest => if String.eqb s item then true else contains rest item
  end.

(** A Go call either returns or panics. *)
Inductive result (A : Type) : Type :=
| Returns (a : A)
| Panics.
Arguments Returns {A} a.
Arguments Panics {A}.

Definition rbind {A B} (r : result A) (k : A -> result B) : result B :=
  match r with
  | Returns a => k a
  | Panics => Panics
  end.

(** Using a pointer: [nil] panics. *)
Definition deref {A} (p : option A) : result A :=
  match p with
  | Some a => Returns a
  | None => Panics
  end.

(* ===================================================================== *)
(** ** The libraries the code calls *)
(* ===================================================================== *)

(** [math/big.Float], [time] and [encoding/json] are used through this
    interface; every theorem below holds for every implementation of it.
    - [Parse s base] is [new(big.Float).Parse(s, base)], [None] when it
      reports an error; [SetString s] is [Parse s 0] and returns nil on
      error;
    - [Mul] and [Quo] are [None] where Go panics with [ErrNaN] (0 times an
      infinity, 0/0, Inf/Inf); dividing by the constant 1e8 never does;
    - [Text x n] is [x.Text('f', n)];
    - [formatTime t] is
      [time.Unix(t, 0).In(Asia/Shanghai).Format("2006-01-02 15:04:05")],
      the time zone database being installed;
    - [encode] is what [json.Encoder.Encode] writes for a [Config],
      [decode] what [json.Decoder.Decode] reads, [None] on error. *)
Class GoLibs := {
  Float : Type;
  Parse : string -> Z -> option Float;
  NewFloat : Z -> Float;
  Sign : Float -> Z;
  Neg : Float -> Float;
  Mul : Float -> Float -> option Float;
  Quo : Float -> Float -> option Float;
  Text : Float -> nat -> string;
  Quo_1e8 : forall x, Quo x (NewFloat 100000000) <> None;
  formatTime : Z -> string;
  encode : Config -> string;
  decode : string -> option Config
}.

Section Formatter.
Context {L : GoLibs}.

Definition SetString (s : string) : option Float := Parse s 0.

(** The price used for the volume: [btcPrice] when present and parseable
    in base 10, otherwise 100000. *)
Definition wbtcPrice (swap : Swap) : Float :=
  if String.eqb (BtcPrice swap) "" then NewFloat 100000
  else match Parse (BtcPrice swap) 10 with
       | Some parsedPrice => parsedPrice
       | None => NewFloat 100000
       end.

(** [FormatSwap].  [amount0Float] and [amount1Float] are pointers that are
    nil when the string does not parse; [Sign], [Neg], [Mul] and [Quo]
    dereference their operands. *)
Definition FormatSwap (swap : Swap) : result string :=
  let amount0Float := SetString (Amount0 swap) in
  let amount1Float := SetString (Amount1 swap) in
  rbind (deref amount0Float) (fun a0 =>
  rbind (if Sign a0 <? 0
         then Returns (amount1Float, Some (Neg a0), "WBTC", "UNIBTC")
         else rbind (deref amount1Float) (fun a1 =>
              Returns (amount0Float, Some (Neg a1), "UNIBTC", "WBTC")))
    (fun '(amountIn, amountOut, tokenIn, tokenOut) =>
  rbind (deref amountIn) (fun ain =>
  rbind (deref (Mul ain (wbtcPrice swap))) (fun vol =>
  rbind (deref (Quo ain (NewFloat 100000000))) (fun qin =>
  rbind (deref amountOut) (fun aout =>
  rbind (deref (Quo aout (NewFloat 100000000))) (fun qout =>
  rbind (deref (Quo vol (NewFloat 100000000))) (fun qvol =>
  let amountInStr := Text qin 5 in
  let amountOutStr := Text qout 5 in
  let volStr := Text qvol 2 in
  match Strconv.ParseInt (BlockTimestamp swap) with
  | (_, Some _) => Returns ""
  | (timestamp, None) =>
      let readableTime := formatTime timestamp in
      Returns (readableTime ++ "  " ++ amountInStr ++ " " ++ tokenIn
               ++ " -> " ++ amountOutStr ++ " " ++ tokenOut
               ++ " Vol: $" ++ volStr)
  end)))))))).

End Formatter.

(* ===================================================================== *)
(** ** The world the task runs in *)
(* ===================================================================== *)

(** What the process does that can be seen from outside, in order. *)
Inductive Event :=
| Post (first : Z) (blockNumber_gt : Z)
    (** the POST of [queryTemplate] filled with these two numbers *)
| Detected (blockNumber transactionHash : string)
    (** the "New swap detected" record [sendNotification] starts with *)
| Get (url : string)
    (** [http.Get(url)] *)
| Sleep (seconds : Z).

(** The state file as the process meets it: [file] is what [os.Open] can
    read ([None]: the open fails, e.g. no such file), [createOk] whether
    [os.Create] succeeds. *)
Record Disk := mkDisk {
  file : option string;
  createOk : bool
}.

(** The package-level variable ([configData], or [storageData] in the older
    variant), the disk and the events so far. *)
Record World (S : Type) := mkWorld {
  data : S;
  disk : Disk;
  trace : list Event
}.
Arguments mkWorld {S} data disk trace.
Arguments data {S} w.
Arguments disk {S} w.
Arguments trace {S} w.

Inductive error :=
| RequestError (msg : string)
    (** [json.Marshal], [http.NewRequest], [client.Do], [ioutil.ReadAll]
        or [json.Unmarshal] failed *)
| NumError (e : Strconv.NumError) (input : string).

(** The answer to one POST: an error on the way or the decoded
    [data.swaps]. *)
Inductive Response :=
| Failed (err : error)
| Page (swaps : list Swap).

(** How a call of an effectful function ends: it returns, it panics, or the
    fuel given to its loop is used up before it ends. *)
Inductive Outcome (S A : Type) : Type :=
| Done (a : A) (w : World S)
| Crashed (w : World S)
| OutOfFuel.
Arguments Done {S A} a w.
Arguments Crashed {S A} w.
Arguments OutOfFuel {S A}.

Definition M (S A : Type) : Type := World S -> Outcome S A.

Definition ret {S A} (a : A) : M S A := fun w => Done a w.

Definition bind {S A B} (m : M S A) (k : A -> M S B) : M S B :=
  fun w => match m w with
           | Done a w' => k a w'
           | Crashed w' => Crashed w'
           | OutOfFuel => OutOfFuel
           end.

Declare Scope go_scope.
Delimit Scope go_scope with go.
Notation "x <- m ;; k" := (bind m (fun x => k))
  (at level 61, m at next level, right associativity) : go_scope.
Notation "m ;;; k" := (bind m (fun _ => k))
  (at level 61, right associativity) : go_scope.
Open Scope go_scope.

Definition get {S} : M S S := fun w => Done (data w) w.

Definition put {S} (s : S) : M S unit :=
  fun w => Done tt (mkWorld s (disk w) (trace w)).

Definition emit {S} (e : Event) : M S unit :=
  fun w => Done tt (mkWorld (data w) (disk w) (trace w ++ [e])%list).

(** [os.Open] followed by reading the file. *)
Definition readFile {S} : M S (option string) :=
  fun w => Done (file (disk w)) w.

(** [os.Create] followed by writing [bytes]; [false] when the file cannot
    be created, and nothing is written then. *)
Definition writeFile {S} (bytes : string) : M S bool :=
  fun w =>
    if createOk (disk w)
    then Done true (mkWorld (data w) (mkDisk (Some bytes) true) (trace w))
    else Done false w.

(** A pure call made from effectful code; its panic stops the caller. *)
Definition call {S A} (r : result A) : M S A :=
  fun w => match r with
           | Returns a => Done a w
           | Panics => Crashed w
           end.

(** Number of POSTs issued so far. *)
Fixpoint posts (tr : list Event) : nat :=
  match tr with
  | [] => O
  | Post _ _ :: rest => S (posts rest)
  | _ :: rest => posts rest
  end.

Definition pageSize : Z := 50.

(** The loop of [sendNotification] over the targets.  The answer to each
    GET only decides which line is logged, so it is left out. *)
Fixpoint pushAll {S} (urls : list string) (message : string) : M S unit :=
  match urls with
  | [] => ret tt
  | baseURL :: rest =>
      emit (Get (baseURL ++ message ++ "?call=1")) ;;;
      pushAll rest message
  end.

(* ===================================================================== *)
(** ** [logic/graph_task.go] *)
(* ===================================================================== *)

Section Task.
Context {L : GoLibs}.

(** The remote endpoint: its answer to the [n]-th POST (counting from 0
    over the whole run) asking for blocks above [blockNumber_gt]. *)
Variable graphAPI : nat -> Z -> Response.

Local Abbreviation Task := (M Config).

(** Accessors of [configData] (the lock they take is not modelled: one
    task runs at a time here). *)
Definition getBarkAPIURLs : Task (list string) :=
  configData <- get ;; ret (BarkAPIURLs configData).
Definition getLastBlockNumber : Task string :=
  configData <- get ;; ret (LastBlockNumber configData).
Definition getCurrentTxHashes : Task (list string) :=
  configData <- get ;; ret (CurrentTxHashes configData).

Definition setLastBlockNumber (blockNumber : string) : Task unit :=
  configData <- get ;;
  put {| BarkAPIURLs := BarkAPIURLs configData;
         LastBlockNumber := blockNumber;
         CurrentTxHashes := CurrentTxHashes configData |}.

Definition setCurrentTxHashes (txHashes : list string) : Task unit :=
  configData <- get ;;
  put {| BarkAPIURLs := BarkAPIURLs configData;
         LastBlockNumber := LastBlockNumber configData;
         CurrentTxHashes := txHashes |}.

(** [saveConfig]: when the file cannot be created the error is logged and
    nothing is written. *)
Definition saveConfig : Task unit :=
  configData <- get ;;
  writeFile (encode configData) ;;;
  ret tt.

(** [loadConfig]. *)
Definition loadConfig : Task unit :=
  opened <- readFile ;;
  match opened with
  | None => put defaultConfig ;;; saveConfig
  | Some bytes =>
      match decode bytes with
      | None => ret tt
      | Some newConfig => put newConfig
      end
  end.

(** Block number of the last element of a non-empty page, as the loop
    reads it: [strconv.Atoi] with its error dropped. *)
Definition lastBlock (swaps : list Swap) : Z :=
  match rev swaps with
  | [] => 0
  | s :: _ => fst (Strconv.Atoi (BlockNumber s))
  end.

(** The loop of [fetchSwaps]; [fuel] bounds the number of requests. *)
Fixpoint fetchLoop (fuel : nat) (startBlock : Z) (allSwaps : list Swap)
  : Task (list Swap * option error) :=
  match fuel with
  | O => fun _ => OutOfFuel
  | S fuel' =>
      fun w =>
        let response := graphAPI (posts (trace w)) startBlock in
        (emit (Post pageSize startBlock) ;;;
         match response with
         | Failed err => ret ([], Some err)
         | Page swaps =>
             if (Z.of_nat (List.length swaps) =? 0) then ret (allSwaps, None)
             else
               let allSwaps' := (allSwaps ++ swaps)%list in
               let newStartBlock := lastBlock swaps in
               if Z.of_nat (List.length swaps) <? pageSize
               then ret (allSwaps', None)
               else fetchLoop fuel' newStartBlock allSwaps'
         end) w
  end.

Definition fetchSwaps (fuel : nat) : Task (list Swap * option error) :=
  last <- getLastBlockNumber ;;
  let startBlock := fst (Strconv.Atoi last) in
  fetchLoop fuel startBlock [].

Definition sendNotification (swap : Swap) : Task (option error) :=
  emit (Detected (BlockNumber swap) (TransactionHash swap)) ;;;
  message <- call (FormatSwap swap) ;;
  if String.eqb message "" then ret None
  else
    urls <- getBarkAPIURLs ;;
    pushAll urls message ;;;
    ret None.

(** The loop of [GraphTask] over the fetched swaps. *)
Fixpoint notifyLoop (swaps : list Swap) (newTxHashes : list string)
  : Task (list string) :=
  match swaps with
  | [] => ret newTxHashes
  | swap :: rest =>
      current <- getCurrentTxHashes ;;
      if negb (contains current (TransactionHash swap)) then
        err <- sendNotification swap ;;
        match err with
        | Some _ => notifyLoop rest newTxHashes
        | None => notifyLoop rest (newTxHashes ++ [TransactionHash swap])%list
        end
      else notifyLoop rest newTxHashes
  end.

Definition GraphTask (fuel : nat) : Task (option error) :=
  fetched <- fetchSwaps fuel ;;
  match fetched with
  | (_, Some err) => emit (Sleep 3) ;;; ret (Some err)
  | (swaps, None) =>
      match swaps with
      | [] => ret None
      | first :: _ =>
          newTxHashes <- notifyLoop swaps [] ;;
          setLastBlockNumber (BlockNumber first) ;;;
          setCurrentTxHashes newTxHashes ;;;
          saveConfig ;;;
          ret None
      end
  end.

End Task.

(* ===================================================================== *)
(** ** The older variant of the file ([storage.json]) *)
(* ===================================================================== *)

Module Legacy.

Record Storage := mkStorage {
  LastBlockNumber : string;
  CurrentTxHashes : list string
}.

Definition barkAPIURLs : list string :=
  ["https://api.day.app/iuizSoSLLvtMTZhhmuWetY/%E4%BA%A4%E6%98%93%E6%8F%90%E9%86%92/"].

(** The two values [loadStorage] falls back to. *)
Definition seedStorage : Storage :=
  {| LastBlockNumber := "21612681";
     CurrentTxHashes :=
       ["0xccce6256453e517062bb4cfb74494a0bdb2fefa793f75d3d31cf041d76bf99fd"] |}.


Section Task.
Context {L : GoLibs}.

(** [encoding/json] on a [Storage]: what [Encode] writes, and what [Decode]
    makes of the bytes when it decodes into the current value ([None] on
    error). *)
Variable encodeStorage : Storage -> string.
Variable decodeInto : Storage -> string -> option Storage.

Variable graphAPI : nat -> Z -> Response.

Local Abbreviation Task := (M Storage).

Definition saveStorage : Task unit :=
  storageData <- get ;;
  writeFile (encodeStorage storageData) ;;;
  ret tt.


Definition parseLastBlockNumber : Task Z :=
  storageData <- get ;;
  match Strconv.Atoi (LastBlockNumber storageData) with
  | (_, Some _) => ret 21584546
  | (blockNumber, None) => ret blockNumber
  end.

(** [BlockNumber] of the last element of a non-empty page. *)
Definition lastBlockNumber (swaps : list Swap) : string :=
  match rev swaps with
  | [] => ""
  | s :: _ => BlockNumber s
  end.

Fixpoint fetchLoop (fuel : nat) (startBlock : Z) (allSwaps : list Swap)
  : Task (list Swap * option error) :=
  match fuel with
  | O => fun _ => OutOfFuel
  | S fuel' =>
      fun w =>
        let response := graphAPI (posts (trace w)) startBlock in
        (emit (Post pageSize startBlock) ;;;
         match response with
         | Failed err => ret ([], Some err)
         | Page swaps =>
             if (Z.of_nat (List.length swaps) =? 0) then ret (allSwaps, None)
             else
               let allSwaps' := (allSwaps ++ swaps)%list in
               match Strconv.Atoi (lastBlockNumber swaps) with
               | (_, Some e) => ret ([], Some (NumError e (lastBlockNumber swaps)))
               | (newStartBlock, None) =>
                   if Z.of_nat (List.length swaps) <? pageSize
                   then ret (allSwaps', None)
                   else fetchLoop fuel' newStartBlock allSwaps'
               end
         end) w
  end.

Definition fetchSwaps (fuel : nat) : Task (list Swap * option error) :=
  startBlock <- parseLastBlockNumber ;;
  fetchLoop fuel startBlock [].

Definition sendNotification (swap : Swap) : Task (option error) :=
  emit (Detected (BlockNumber swap) (TransactionHash swap)) ;;;
  message <- call (FormatSwap swap) ;;
  if String.eqb message "" then ret None
  else
    pushAll barkAPIURLs message ;;;
    ret None.

Fixpoint notifyLoop (swaps : list Swap) (newTxHashes : list string)
  : Task (list string) :=
  match swaps with
  | [] => ret newTxHashes
  | swap :: rest =>
      storageData <- get ;;
      if negb (contains (CurrentTxHashes storageData) (TransactionHash swap)) then
        err <- sendNotification swap ;;
        match err with
        | Some _ => notifyLoop rest newTxHashes
        | None => notifyLoop rest (newTxHashes ++ [TransactionHash swap])%list
        end
      else notifyLoop rest newTxHashes
  end.

Definition GraphTask (fuel : nat) : Task (option error) :=
  fetched <- fetchSwaps fuel ;;
  match fetched with
  | (_, Some err) => emit (Sleep 3) ;;; ret (Some err)
  | (swaps, None) =>
      match swaps with
      | [] => ret None
      | first :: _ =>
          newTxHashes <- notifyLoop swaps [] ;;
          put {| LastBlockNumber := BlockNumber first;
                 CurrentTxHashes := newTxHashes |} ;;;
          saveStorage ;;;
          ret None
      end
  end.

End Task.

End Legacy.

(* ===================================================================== *)
(** ** The watcher, the job wrapper and the schedule *)
(* ===================================================================== *)

(** What one turn of the [select] of [watchConfig] receives. *)
Inductive Received :=
| FsEvent (op : Z)
    (** an event from [watcher.Events], with its [Op] bits *)
| EventsClosed
    (** [watcher.Events] is closed *)
| FsError
    (** an error from [watcher.Errors] *)
| ErrorsClosed.
    (** [watcher.Errors] is closed *)

Section Watcher.
Context {L : GoLibs}.

(** The bit [fsnotify.Write] of [Op]. *)
Variable Write : Z.

(** The loop of [watchConfig] over what the two channels deliver, in the
    order the [select] takes it.  When nothing more is delivered the
    goroutine waits; the world is then the one reached. *)
Fixpoint watchLoop (received : list Received) : M Config unit :=
  match received with
  | [] => ret tt
  | FsEvent op :: rest =>
      if Z.land op Write =? Write
      then loadConfig ;;; watchLoop rest
      else watchLoop rest
  | EventsClosed :: _ => ret tt
  | FsError :: rest => watchLoop rest
  | ErrorsClosed :: _ => ret tt
  end.

(** [watchConfig]: [created] tells whether [fsnotify.NewWatcher] succeeds,
    [added] whether [watcher.Add(configFile)] does. *)
Definition watchConfig (created added : bool) (received : list Received)
  : M Config unit :=
  if created then
    if added then watchLoop received else ret tt
  else ret tt.

End Watcher.

(** [utils]: the wrapper the schedule runs. *)
Module Utils.

Record JobWrapper (S : Type) := mkJob {
  name : string;
  runner : M S (option error)
}.
Arguments mkJob {S} name runner.
Arguments name {S} j.
Arguments runner {S} j.

Definition WrapJob {S} (name : string) (runner : M S (option error))
  : JobWrapper S :=
  mkJob name runner.

(** [Run]: the error of the runner is logged and dropped; nothing recovers
    a panic. *)
Definition Run {S} (w : JobWrapper S) : M S unit :=
  err <- runner w ;;
  match err with
  | Some _ => ret tt
  | None => ret tt
  end.

End Utils.

(** The job [StartTasks] hands to the scheduler. *)
Definition graphJob {L : GoLibs} (graphAPI : nat -> Z -> Response) (fuel : nat)
  : Utils.JobWrapper Config :=
  Utils.WrapJob "graph_task" (GraphTask graphAPI fuel).

(* ===================================================================== *)
(** ** Vocabulary of the properties *)
(* ===================================================================== *)

(** The world with more events. *)
Definition addEvents {S} (w : World S) (evs : list Event) : World S :=
  mkWorld (data w) (disk w) (trace w ++ evs)%list.

(** The number the code reads from a block-number string: [strconv.Atoi]
    with the error dropped (the decimal value when the string is one that
    fits an int64). *)
Definition blockNumberOf (s : string) : Z := fst (Strconv.Atoi s).

(** The remote honours [blockNumber_gt]: every swap it returns is above the
    block number asked for. *)
Definition honoursFilter (graphAPI : nat -> Z -> Response) : Prop :=
  forall n c swaps, graphAPI n c = Page swaps ->
    forall s, In s swaps -> c < blockNumberOf (BlockNumber s).

(** The hash of [swap] is not in the dedup set [current]. *)
Definition unknown (current : list string) (swap : Swap) : bool :=
  negb (contains current (TransactionHash swap)).

(** The GETs that deliver [message] to [targets], in order. *)
Definition deliveries (targets : list string) (message : string) : list Event :=
  map (fun target => Get (target ++ message ++ "?call=1")) targets.

Section Vocabulary.
Context {L : GoLibs}.

(** The disk after [saveConfig] has run on configuration [c]. *)
Definition saved (c : Config) (d : Disk) : Disk :=
  if createOk d then mkDisk (Some (encode c)) true else d.

(** The world after the checkpoint of a pass that fetched [first] in front
    and processed [newTxHashes], taken in world [w]. *)
Definition checkpointed (first : Swap) (newTxHashes : list string)
  (w : World Config) : World Config :=
  let c := {| BarkAPIURLs := BarkAPIURLs (data w);
              LastBlockNumber := BlockNumber first;
              CurrentTxHashes := newTxHashes |} in
  mkWorld c (saved c (disk w)) (trace w).

(** What one call of [sendNotification] adds to the trace. *)
Definition notification (targets : list string) (swap : Swap) : list Event :=
  Detected (BlockNumber swap) (TransactionHash swap) ::
  match FormatSwap swap with
  | Panics => []
  | Returns message =>
      if String.eqb message "" then [] else deliveries targets message
  end.

Definition returns (swap : Swap) : bool :=
  match FormatSwap swap with
  | Returns _ => true
  | Panics => false
  end.

(** The swaps [sendNotification] is called on when the loop of [GraphTask]
    runs over [swaps]: those with an unknown hash, up to and including the
    first one whose formatting panics. *)
Fixpoint attempted (current : list string) (swaps : list Swap) : list Swap :=
  match swaps with
  | [] => []
  | swap :: rest =>
      if unknown current swap then
        if returns swap then swap :: attempted current rest else [swap]
      else attempted current rest
  end.

(** [message] shows a swap of [amountIn] [tokenIn] for [amountOut]
    [tokenOut]. *)
Definition reports (message tokenIn tokenOut : string) (amountIn amountOut : Float)
  : Prop :=
  exists time vol qin qout,
    Quo amountIn (NewFloat 100000000) = Some qin /\
    Quo amountOut (NewFloat 100000000) = Some qout /\
    message = time ++ "  " ++ Text qin 5 ++ " " ++ tokenIn ++ " -> "
              ++ Text qout 5 ++ " " ++ tokenOut ++ " Vol: $" ++ vol.

Variable graphAPI : nat -> Z -> Response.

(** The remote answers the requests of one fetch, the first being request
    number [n] with cursor [cursor], by the full pages [pages] and then by
    [final], the first page with fewer than [pageSize] records; each request
    after the first asks above the last block of the page before. *)
Inductive Serves : nat -> Z -> list (list Swap) -> list Swap -> Prop :=
| serves_final n cursor final :
    graphAPI n cursor = Page final ->
    Z.of_nat (List.length final) < pageSize ->
    Serves n cursor [] final
| serves_full n cursor page pages final :
    graphAPI n cursor = Page page ->
    pageSize <= Z.of_nat (List.length page) ->
    Serves (S n) (lastBlock page) pages final ->
    Serves n cursor (page :: pages) final.

(** The same run of requests with its cursors written out: the first is
    [cursor], and the one after a full page is the block number of the
    last element of that page. *)
Inductive Paginated : nat -> Z -> list (list Swap) -> list Swap -> list Z -> Prop :=
| paginated_final n cursor final :
    graphAPI n cursor = Page final ->
    Z.of_nat (List.length final) < 50 ->
    Paginated n cursor [] final [cursor]
| paginated_full n cursor front lastSwap pages final cursors :
    graphAPI n cursor = Page (front ++ [lastSwap])%list ->
    50 <= Z.of_nat (List.length (front ++ [lastSwap])%list) ->
    Paginated (S n) (blockNumberOf (BlockNumber lastSwap)) pages final cursors ->
    Paginated n cursor ((front ++ [lastSwap])%list :: pages) final
              (cursor :: cursors).

(** The same for the older variant, which also needs the block number of
    the last element of every page with records to be a number. *)
Inductive ServesLegacy : nat -> Z -> list (list Swap) -> list Swap -> Prop :=
| legacy_empty n cursor :
    graphAPI n cursor = Page [] ->
    ServesLegacy n cursor [] []
| legacy_final n cursor final next :
    graphAPI n cursor = Page final ->
    0 < Z.of_nat (List.length final) < pageSize ->
    Strconv.Atoi (Legacy.lastBlockNumber final) = (next, None) ->
    ServesLegacy n cursor [] final
| legacy_full n cursor page pages final next :
    graphAPI n cursor = Page page ->
    pageSize <= Z.of_nat (List.length page) ->
    Strconv.Atoi (Legacy.lastBlockNumber page) = (next, None) ->
    ServesLegacy (S n) next pages final ->
    ServesLegacy n cursor (page :: pages) final.

(** The cursors of these requests. *)
Definition cursors (cursor : Z) (pages : list (list Swap)) : list Z :=
  cursor :: map lastBlock pages.

End Vocabulary.

(** Percent-encoding of a path segment, the [urlEncode] of the
    specification (Go's [url.PathEscape]): letters, digits and
    [-_.~$&+=:@] are kept, every other byte becomes [%XX]. *)
Module UrlEncode.

Definition hexDigit (n : N) : ascii :=
  ascii_of_N (if (n <? 10)%N then 48 + n else 55 + n)%N.



End UrlEncode.

(** What [http.Get] makes of the string it is given, before anything is
    sent: [url.Parse], and the request target [URL.RequestURI] writes on
    the request line.  The code only builds the string; how it is read is
    [net/url]'s doing, modelled here from the library's documented
    behaviour.  The parsing of the authority (user, host, port) is taken
    as a parameter. *)
Module NetURL.

Fixpoint anyByte (p : ascii -> bool) (s : string) : bool :=
  match s with
  | EmptyString => false
  | String c rest => p c || anyByte p rest
  end.


(** [stringContainsCTLByte]. *)
Definition isCTL (c : ascii) : bool :=
  let n := N_of_ascii c in ((n <? 32) || (n =? 127))%N.





Definition isLetter (c : ascii) : bool :=
  let n := N_of_ascii c in
  ((65 <=? n) && (n <=? 90) || (97 <=? n) && (n <=? 122))%N.

Definition isDigit (c : ascii) : bool :=
  let n := N_of_ascii c in ((48 <=? n) && (n <=? 57))%N.






(** [shouldEscape(c, encodePath)]: letters, digits and [-_.~$&+,/:;=@] are
    kept. *)
Definition shouldEscape (c : ascii) : bool :=
  negb (isLetter c || isDigit c
        || anyByte (Ascii.eqb c) "-_.~$&+,/:;=@").

Definition escapeByte (c : ascii) : string :=
  if shouldEscape c then
    let n := N_of_ascii c in
    String "%" (String (UrlEncode.hexDigit (n / 16))
               (String (UrlEncode.hexDigit (n mod 16)) EmptyString))
  else String c EmptyString.

(** [escape(s, encodePath)]. *)
Fixpoint escape (s : string) : string :=
  match s with
  | EmptyString => EmptyString
  | String c rest => escapeByte c ++ escape rest
  end.







Section Requested.

(** [parseAuthority]: the host part of the URL for an authority it
    accepts with a host in it, [None] otherwise. *)
Variable parseAuthority : string -> option string.



End Requested.

(** A message that can stand in a path segment as it is, once escaped:
    none of the bytes [% ? # / ; ,] and no control byte. *)
Definition plain (message : string) : bool :=
  negb (anyByte (fun c => anyByte (Ascii.eqb c) "%?#/;," || isCTL c) message).

End NetURL.

(** [n] runs of a job one after the other, as the scheduler starts them
    when no run overlaps the next. *)
Fixpoint ticks {S} (n : nat) (job : M S unit) : M S unit :=
  match n with
  | O => ret tt
  | S m => job ;;; ticks m job
  end.

(** The world an outcome ends in, when there is one. *)
Definition finalWorld {S A} (o : Outcome S A) : option (World S) :=
  match o with
  | Done _ w => Some w
  | Crashed w => Some w
  | OutOfFuel => None
  end.

(** The swap is above block [c], as the code reads block numbers. *)
Definition above (c : Z) (s : Swap) : bool :=
  c <? blockNumberOf (BlockNumber s).

(** Newest first. *)
Fixpoint descending (l : list Swap) : bool :=
  match l with
  | [] => true
  | a :: rest =>
      match rest with
      | [] => true
      | b :: _ =>
          (blockNumberOf (BlockNumber b) <=? blockNumberOf (BlockNumber a))
          && descending rest
      end
  end.

(** A remote that holds [history] and answers the query as it is written
    in [queryTemplate]: of the swaps above the cursor, newest first, the
    first 50. *)
Definition subgraph (history : list Swap) : nat -> Z -> Response :=
  fun _ cursor => Page (firstn 50 (filter (above cursor) history)).

(** Something arrives with the Write bit before a channel is closed. *)
Fixpoint reloads (Write : Z) (received : list Received) : bool :=
  match received with
  | [] => false
  | FsEvent op :: rest => (Z.land op Write =? Write) || reloads Write rest
  | FsError :: rest => reloads Write rest
  | EventsClosed :: _ => false
  | ErrorsClosed :: _ => false
  end.

(** The cursor the older variant starts a fetch from: the stored block
    number, or 21584546 when it is not a number. *)
Definition legacyCursor (last : string) : Z :=
  match Strconv.Atoi last with
  | (_, Some _) => 21584546
  | (blockNumber, None) => blockNumber
  end.

(** The event is a GET. *)
Definition isGet (e : Event) : bool :=
  match e with
  | Get _ => true
  | _ => false
  end.

(* ===================================================================== *)
(** ** A concrete instance of the libraries *)
(* ===================================================================== *)

(** An implementation of [GoLibs] to run the model on examples.  It
    covers what the subgraph sends and the code writes: amounts and prices
    in plain decimal notation, computed exactly (Go rounds to a 64-bit
    mantissa, which these examples never reach), the fixed offset +08:00
    for Asia/Shanghai, and JSON objects whose values are strings, arrays of
    strings or null. *)
Module Sample.

Definition decimal (n : Z) : string :=
  NilZero.string_of_uint (N.to_uint (Z.to_N n)).

Fixpoint zeros (n : nat) : string :=
  match n with
  | O => ""
  | S m => "0" ++ zeros m
  end.

(** [n] in at least [width] digits. *)
Definition padded (width : nat) (n : Z) : string :=
  let d := decimal n in
  zeros (width - String.length d) ++ d.

(** *** math/big *)

Fixpoint allDigits (s : string) : bool :=
  match s with
  | EmptyString => true
  | String c rest =>
      match Strconv.digit c with
      | Some _ => allDigits rest
      | None => false
      end
  end.

Fixpoint digitsValue (acc : Z) (s : string) : Z :=
  match s with
  | EmptyString => acc
  | String c rest =>
      match Strconv.digit c with
      | Some d => digitsValue (acc * 10 + d) rest
      | None => acc
      end
  end.

(** Splits at the first ['.']. *)
Fixpoint splitDot (s : string) : string * option string :=
  match s with
  | EmptyString => ("", None)
  | String c rest =>
      if Ascii.eqb c "." then ("", Some rest)
      else let '(i, f) := splitDot rest in (String c i, f)
  end.

Definition parseUnsigned (s : string) : option Q :=
  let '(i, f) := splitDot s in
  let f := match f with Some f => f | None => "" end in
  if allDigits i && allDigits f
     && negb (Nat.eqb (String.length i + String.length f) 0)
  then Some (Qred (Qmake (digitsValue 0 (i ++ f))
                         (Z.to_pos (10 ^ Z.of_nat (String.length f)))))
  else None.

Definition parseDecimal (s : string) (base : Z) : option Q :=
  match s with
  | EmptyString => None
  | String c rest =>
      if Ascii.eqb c "-" then option_map Qopp (parseUnsigned rest)
      else if Ascii.eqb c "+" then parseUnsigned rest
      else parseUnsigned s
  end.

Definition quo (x y : Q) : option Q :=
  if Qeq_bool y 0 then None else Some (Qred (x / y)).

(** [|x| * 10^n] rounded to the nearest integer, ties to even. *)
Definition roundScaled (x : Q) (n : nat) : Z :=
  let num := Z.abs (Qnum x) * 10 ^ Z.of_nat n in
  let den := Zpos (Qden x) in
  let q := num / den in
  let r := num mod den in
  if 2 * r <? den then q
  else if den <? 2 * r then q + 1
  else if Z.even q then q else q + 1.

Definition text (x : Q) (n : nat) : string :=
  let scaled := roundScaled x n in
  let sign := if Qnum x <? 0 then "-" else "" in
  let whole := decimal (scaled / 10 ^ Z.of_nat n) in
  match n with
  | O => sign ++ whole
  | _ => sign ++ whole ++ "." ++ padded n (scaled mod 10 ^ Z.of_nat n)
  end.

(** *** time *)

(** Civil date of a day number counted from 1970-01-01. *)
Definition civil (days : Z) : Z * Z * Z :=
  let z := days + 719468 in
  let era := z / 146097 in
  let doe := z - era * 146097 in
  let yoe := (doe - doe / 1460 + doe / 36524 - doe / 146096) / 365 in
  let doy := doe - (365 * yoe + yoe / 4 - yoe / 100) in
  let mp := (5 * doy + 2) / 153 in
  let d := doy - (153 * mp + 2) / 5 + 1 in
  let m := if mp <? 10 then mp + 3 else mp - 9 in
  let y := yoe + era * 400 + (if m <=? 2 then 1 else 0) in
  (y, m, d).

Definition shanghai (t : Z) : string :=
  let local := t + 8 * 3600 in
  let '(y, m, d) := civil (local / 86400) in
  let secs := local mod 86400 in
  padded 4 y ++ "-" ++ padded 2 m ++ "-" ++ padded 2 d ++ " "
  ++ padded 2 (secs / 3600) ++ ":" ++ padded 2 (secs mod 3600 / 60)
  ++ ":" ++ padded 2 (secs mod 60).

(** *** encoding/json *)

Definition dquote : ascii := ascii_of_nat 34.
Definition backslash : ascii := ascii_of_nat 92.
Definition nl : string := String (ascii_of_nat 10) EmptyString.
Definition quote : string := String dquote EmptyString.

Fixpoint escape (s : string) : string :=
  match s with
  | EmptyString => ""
  | String c rest =>
      if Ascii.eqb c dquote || Ascii.eqb c backslash
      then String backslash (String c (escape rest))
      else String c (escape rest)
  end.

Definition jsonString (s : string) : string := quote ++ escape s ++ quote.

Fixpoint jsonItems (indent : string) (l : list string) : string :=
  match l with
  | [] => ""
  | [s] => indent ++ jsonString s ++ nl
  | s :: rest => indent ++ jsonString s ++ "," ++ nl ++ jsonItems indent rest
  end.

Definition jsonArray (l : list string) : string :=
  match l with
  | [] => "[]"
  | _ => "[" ++ nl ++ jsonItems "    " l ++ "  ]"
  end.

(** [Encode] with [SetIndent("", "  ")]. *)
Definition encodeConfig (c : Config) : string :=
  "{" ++ nl
  ++ "  " ++ jsonString "barkAPIURLs" ++ ": " ++ jsonArray (BarkAPIURLs c) ++ "," ++ nl
  ++ "  " ++ jsonString "lastBlockNumber" ++ ": " ++ jsonString (LastBlockNumber c) ++ "," ++ nl
  ++ "  " ++ jsonString "currentTxHashes" ++ ": " ++ jsonArray (CurrentTxHashes c) ++ nl
  ++ "}" ++ nl.

Inductive value :=
| VString (s : string)
| VArray (l : list string)
| VNull.

Definition isSpace (c : ascii) : bool :=
  Ascii.eqb c " " || Ascii.eqb c (ascii_of_nat 10)
  || Ascii.eqb c (ascii_of_nat 13) || Ascii.eqb c (ascii_of_nat 9).

Fixpoint skipSpace (s : string) : string :=
  match s with
  | String c rest => if isSpace c then skipSpace rest else s
  | EmptyString => s
  end.

(** The rest of a string literal after its opening quote. *)
Fixpoint stringBody (s : string) : option (string * string) :=
  match s with
  | EmptyString => None
  | String c rest =>
      if Ascii.eqb c dquote then Some ("", rest)
      else if Ascii.eqb c backslash then
        match rest with
        | String e rest' =>
            if Ascii.eqb e dquote || Ascii.eqb e backslash || Ascii.eqb e "/"
            then option_map (fun '(body, r) => (String e body, r)) (stringBody rest')
            else None
        | EmptyString => None
        end
      else option_map (fun '(body, r) => (String c body, r)) (stringBody rest)
  end.

Definition parseString (s : string) : option (string * string) :=
  match s with
  | String c rest => if Ascii.eqb c dquote then stringBody rest else None
  | EmptyString => None
  end.

(** The elements of an array after the first, up to the closing bracket. *)
Fixpoint arrayTail (fuel : nat) (s : string) : option (list string * string) :=
  match fuel with
  | O => None
  | S fuel' =>
      match skipSpace s with
      | String c rest =>
          if Ascii.eqb c "]" then Some ([], rest)
          else if Ascii.eqb c "," then
            match parseString (skipSpace rest) with
            | Some (item, rest') =>
                option_map (fun '(items, r) => (item :: items, r))
                           (arrayTail fuel' rest')
            | None => None
            end
          else None
      | EmptyString => None
      end
  end.

Definition parseValue (s : string) : option (value * string) :=
  match s with
  | String "n" (String "u" (String "l" (String "l" rest))) => Some (VNull, rest)
  | String "[" rest =>
      match skipSpace rest with
      | String "]" rest' => Some (VArray [], rest')
      | inner =>
          match parseString inner with
          | Some (item, rest') =>
              option_map (fun '(items, r) => (VArray (item :: items), r))
                         (arrayTail (String.length rest') rest')
          | None => None
          end
      end
  | _ => option_map (fun '(str, r) => (VString str, r)) (parseString s)
  end.

(** Stores one member into the value being decoded; a value of the wrong
    kind is an error, null and unknown keys change nothing. *)
Definition assign (c : Config) (key : string) (v : value) : option Config :=
  if String.eqb key "barkAPIURLs" then
    match v with
    | VArray l => Some (mkConfig l (LastBlockNumber c) (CurrentTxHashes c))
    | VNull => Some c
    | VString _ => None
    end
  else if String.eqb key "lastBlockNumber" then
    match v with
    | VString s => Some (mkConfig (BarkAPIURLs c) s (CurrentTxHashes c))
    | VNull => Some c
    | VArray _ => None
    end
  else if String.eqb key "currentTxHashes" then
    match v with
    | VArray l => Some (mkConfig (BarkAPIURLs c) (LastBlockNumber c) l)
    | VNull => Some c
    | VString _ => None
    end
  else Some c.

(** The members of an object from a key on, up to the closing brace. *)
Fixpoint members (fuel : nat) (c : Config) (s : string) : option Config :=
  match fuel with
  | O => None
  | S fuel' =>
      match parseString (skipSpace s) with
      | None => None
      | Some (key, rest) =>
          match skipSpace rest with
          | String ":" rest' =>
              match parseValue (skipSpace rest') with
              | None => None
              | Some (v, rest'') =>
                  match assign c key v with
                  | None => None
                  | Some c' =>
                      match skipSpace rest'' with
                      | String "," more => members fuel' c' more
                      | String "}" _ => Some c'
                      | _ => None
                      end
                  end
              end
          | _ => None
          end
      end
  end.

(** [Decode] into the value [c]: the first JSON value of the input. *)
Definition decodeFrom (c : Config) (s : string) : option Config :=
  match skipSpace s with
  | String "{" rest =>
      match skipSpace rest with
      | String "}" _ => Some c
      | _ => members (String.length rest) c rest
      end
  | _ => None
  end.

Definition decodeConfig (s : string) : option Config := decodeFrom zeroConfig s.

(** The same for the [Storage] of the older variant, written without
    indentation. *)
Fixpoint jsonList (l : list string) : string :=
  match l with
  | [] => ""
  | [s] => jsonString s
  | s :: rest => jsonString s ++ "," ++ jsonList rest
  end.

Definition encodeStorage (st : Legacy.Storage) : string :=
  "{" ++ jsonString "lastBlockNumber" ++ ":"
  ++ jsonString (Legacy.LastBlockNumber st) ++ ","
  ++ jsonString "currentTxHashes" ++ ":"
  ++ "[" ++ jsonList (Legacy.CurrentTxHashes st) ++ "]" ++ "}" ++ nl.


(** *** net/url *)


#[export] Instance libs : GoLibs := {|
  Float := Q;
  Parse := parseDecimal;
  NewFloat := inject_Z;
  Sign := fun x => Z.sgn (Qnum x);
  Neg := fun x => Qopp x;
  Mul := fun x y => Some (Qred (x * y));
  Quo := quo;
  Text := text;
  Quo_1e8 := ltac:(intros x; unfold quo; simpl; discriminate);
  formatTime := shanghai;
  encode := encodeConfig;
  decode := decodeConfig
|}.

End Sample.


(* ===================================================================== *)
(** ** Example data *)
(* ===================================================================== *)

Module Examples.

Import Sample.

(** A swap of 2 WBTC for 1 UNIBTC in block 21612700. *)
Definition swapNew : Swap :=
  {| ID := "0xaaa1-7"; Sender := "0x01"; Recipient := "0x02";
     Amount0 := "-100000000"; Amount1 := "200000000";
     SqrtPriceX96 := "79228162514264337593543950336"; Liquidity := "1000";
     Tick := 0; BlockNumber := "21612700"; BlockTimestamp := "1700000000";
     TransactionHash := "0xaaa1"; BtcPrice := "100000" |}.

(** A swap the default configuration already knows. *)
Definition swapSeen : Swap :=
  {| ID := "0xccce-3"; Sender := "0x01"; Recipient := "0x02";
     Amount0 := "300000000"; Amount1 := "-100000000";
     SqrtPriceX96 := "79228162514264337593543950336"; Liquidity := "1000";
     Tick := 0; BlockNumber := "21612690"; BlockTimestamp := "1699990000";
     TransactionHash :=
       "0xccce6256453e517062bb4cfb74494a0bdb2fefa793f75d3d31cf041d76bf99fd";
     BtcPrice := "" |}.

(** [swapNew] with an amount that is not a number. *)
Definition swapBadAmount : Swap :=
  {| ID := "0xbbb2-1"; Sender := "0x01"; Recipient := "0x02";
     Amount0 := "abc"; Amount1 := "200000000";
     SqrtPriceX96 := "79228162514264337593543950336"; Liquidity := "1000";
     Tick := 0; BlockNumber := "21612701"; BlockTimestamp := "1700000012";
     TransactionHash := "0xbbb2"; BtcPrice := "100000" |}.

(** [swapNew] with a timestamp that is not a number. *)
Definition swapBadTime : Swap :=
  {| ID := "0xddd4-1"; Sender := "0x01"; Recipient := "0x02";
     Amount0 := "-100000000"; Amount1 := "200000000";
     SqrtPriceX96 := "79228162514264337593543950336"; Liquidity := "1000";
     Tick := 0; BlockNumber := "21612702"; BlockTimestamp := "soon";
     TransactionHash := "0xddd4"; BtcPrice := "100000" |}.

(** A remote that holds [history] and answers as the query asks: the swaps
    above the cursor, newest first as stored. *)
Definition remoteWith (history : list Swap) : nat -> Z -> Response :=
  fun _ cursor =>
    Page (filter (fun s => cursor <? blockNumberOf (BlockNumber s)) history).

Definition remote : nat -> Z -> Response := remoteWith [swapNew; swapSeen].

(** A remote that cannot be reached. *)
Definition down : nat -> Z -> Response :=
  fun _ _ => Failed (RequestError "connection refused").

(** A remote that repeats one page whatever is asked. *)
Definition repeating (page : list Swap) : nat -> Z -> Response :=
  fun _ _ => Page page.

(** The process just after a first start. *)
Definition fresh : World Config :=
  mkWorld defaultConfig (mkDisk (Some (encodeConfig defaultConfig)) true) [].

(** The same with a state file that cannot be rewritten. *)
Definition readOnly : World Config :=
  mkWorld defaultConfig (mkDisk (Some (encodeConfig defaultConfig)) false) [].





(** A remote with more than one page: a full page of fifty records, then a
    page of one. *)
Definition fullPage : list Swap := repeat swapNew 50.

Definition paged : nat -> Z -> Response :=
  fun n _ => match n with
             | O => Page fullPage
             | _ => Page [swapSeen]
             end.

(** [swapNew] with a block number that is not a number. *)
Definition swapBadBlock : Swap :=
  {| ID := "0xeee5-1"; Sender := "0x01"; Recipient := "0x02";
     Amount0 := "-100000000"; Amount1 := "200000000";
     SqrtPriceX96 := "79228162514264337593543950336"; Liquidity := "1000";
     Tick := 0; BlockNumber := "latest"; BlockTimestamp := "1700000024";
     TransactionHash := "0xeee5"; BtcPrice := "100000" |}.

(** [swapNew] with a price that is not a number. *)
Definition swapBadPrice : Swap :=
  {| ID := "0xfff6-1"; Sender := "0x01"; Recipient := "0x02";
     Amount0 := "-100000000"; Amount1 := "200000000";
     SqrtPriceX96 := "79228162514264337593543950336"; Liquidity := "1000";
     Tick := 0; BlockNumber := "21612703"; BlockTimestamp := "1700000036";
     TransactionHash := "0xfff6"; BtcPrice := "n/a" |}.

(** The swap of block [21612700 + i], with its own hash. *)
Definition swapAt (i : nat) : Swap :=
  {| ID := "0x5a-" ++ decimal (Z.of_nat i); Sender := "0x01"; Recipient := "0x02";
     Amount0 := "-100000000"; Amount1 := "200000000";
     SqrtPriceX96 := "79228162514264337593543950336"; Liquidity := "1000";
     Tick := 0; BlockNumber := decimal (21612700 + Z.of_nat i);
     BlockTimestamp := "1700000000";
     TransactionHash := "0x5a" ++ decimal (Z.of_nat i); BtcPrice := "100000" |}.

(** Sixty swaps in sixty blocks, newest first. *)
Definition sixty : list Swap := rev (map swapAt (seq 0 60)).


(** A remote with a full page of fifty swaps in fifty blocks, then a page
    of one. *)
Definition pagedBlocks : nat -> Z -> Response :=
  fun n _ => match n with
             | O => Page (firstn 50 sixty)
             | _ => Page [swapSeen]
             end.


(** The older variant just after a first start. *)
Definition legacyFresh : World Legacy.Storage :=
  mkWorld Legacy.seedStorage
          (mkDisk (Some (encodeStorage Legacy.seedStorage)) true) [].

(** The process with no target configured. *)
Definition untargeted : World Config :=
  mkWorld (mkConfig [] "21612681" [])
          (mkDisk (Some (encodeConfig (mkConfig [] "21612681" []))) true) [].

End Examples.

(* ===================================================================== *)
(** ** Running the monad *)
(* ===================================================================== *)

Lemma addEvents_nil {S} (w : World S) : addEvents w [] = w.
Proof. destruct w; unfold addEvents; simpl. now rewrite app_nil_r. Qed.

Lemma addEvents_app {S} (w : World S) (a b : list Event) :
  addEvents (addEvents w a) b = addEvents w (a ++ b)%list.
Proof. unfold addEvents; simpl. now rewrite app_assoc. Qed.

Lemma pushAll_run {S} (urls : list string) (message : string) (w : World S) :
  pushAll urls message w = Done tt (addEvents w (deliveries urls message)).
Proof.
  revert w; induction urls as [|baseURL rest IH]; intros w; simpl.
  - unfold ret. now rewrite addEvents_nil.
  - unfold bind, emit. fold (addEvents w [Get (baseURL ++ message ++ "?call=1")]).
    rewrite IH, addEvents_app. reflexivity.
Qed.

Lemma posts_app (a b : list Event) : posts (a ++ b) = (posts a + posts b)%nat.
Proof.
  induction a as [|e a IH]; simpl; [reflexivity|].
  destruct e; simpl; rewrite IH; reflexivity.
Qed.

Lemma contains_In (slice : list string) (item : string) :
  contains slice item = true <-> In item slice.
Proof.
  induction slice as [|s rest IH]; simpl.
  - split; [discriminate | tauto].
  - destruct (String.eqb_spec s item) as [->|Hne].
    + split; auto.
    + rewrite IH. split; [tauto|]. intros [H|H]; [contradiction|assumption].
Qed.

Lemma unknown_spec (current : list string) (swap : Swap) :
  unknown current swap = true <-> ~ In (TransactionHash swap) current.
Proof.
  unfold unknown. rewrite negb_true_iff, <- contains_In.
  destruct (contains current (TransactionHash swap)); split; congruence.
Qed.

Section Runs.
Context {L : GoLibs}.
Variable graphAPI : nat -> Z -> Response.

Lemma sendNotification_run (swap : Swap) (w : World Config) :
  sendNotification swap w =
  let w' := addEvents w (notification (BarkAPIURLs (data w)) swap) in
  if returns swap then Done None w' else Crashed w'.
Proof.
  unfold sendNotification, notification, returns, bind, emit, call; simpl.
  destruct (FormatSwap swap) as [message|]; simpl; [|reflexivity].
  destruct (String.eqb message ""); [reflexivity|].
  unfold getBarkAPIURLs, bind, get, ret; simpl.
  rewrite pushAll_run. unfold addEvents; simpl.
  rewrite <- app_assoc. reflexivity.
Qed.

Lemma notifyLoop_run (swaps : list Swap) :
  forall (acc : list string) (w : World Config),
  notifyLoop swaps acc w =
  let att := attempted (CurrentTxHashes (data w)) swaps in
  let w' := addEvents w (flat_map (notification (BarkAPIURLs (data w))) att) in
  if forallb returns att then Done (acc ++ map TransactionHash att)%list w'
  else Crashed w'.
Proof.
  induction swaps as [|swap rest IH]; intros acc w.
  - cbn. unfold ret. now rewrite addEvents_nil, app_nil_r.
  - cbn [notifyLoop attempted].
    unfold bind at 1, getCurrentTxHashes, bind, get, ret.
    fold (unknown (CurrentTxHashes (data w)) swap).
    destruct (unknown (CurrentTxHashes (data w)) swap); cbn [negb];
      [|apply IH].
    unfold bind. rewrite sendNotification_run. cbv zeta.
    destruct (returns swap) eqn:Hr.
    + rewrite IH. cbn [data addEvents forallb flat_map map].
      rewrite Hr. cbn [andb].
      rewrite addEvents_app, <- app_assoc. reflexivity.
    + cbn [forallb flat_map map]. rewrite Hr. cbn [andb].
      now rewrite app_nil_r.
Qed.

Lemma attempted_unknown (current : list string) (swaps : list Swap) (s : Swap) :
  In s (attempted current swaps) -> In s swaps /\ unknown current s = true.
Proof.
  induction swaps as [|swap rest IH]; simpl; [tauto|].
  destruct (unknown current swap) eqn:Hu.
  - destruct (returns swap); simpl.
    + intros [<-|H]; [auto|]. destruct (IH H); auto.
    + intros [<-|[]]; auto.
  - intros H; destruct (IH H); auto.
Qed.

Lemma attempted_all (current : list string) (swaps : list Swap) :
  forallb returns (attempted current swaps) = true ->
  attempted current swaps = filter (unknown current) swaps.
Proof.
  induction swaps as [|swap rest IH]; simpl; [reflexivity|].
  destruct (unknown current swap); [|exact IH].
  destruct (returns swap) eqn:Hr; simpl; rewrite Hr; simpl.
  - intros H. now rewrite IH.
  - discriminate.
Qed.

End Runs.

(* ===================================================================== *)
(** ** The fetch *)
(* ===================================================================== *)

Section Fetch.
Context {L : GoLibs}.
Variable graphAPI : nat -> Z -> Response.

Lemma fetchLoop_step (fuel : nat) (c : Z) (acc : list Swap) (w : World Config) :
  fetchLoop graphAPI (S fuel) c acc w =
  let w1 := addEvents w [Post pageSize c] in
  match graphAPI (posts (trace w)) c with
  | Failed err => Done ([], Some err) w1
  | Page swaps =>
      if Z.of_nat (List.length swaps) =? 0 then Done (acc, None) w1
      else if Z.of_nat (List.length swaps) <? pageSize
           then Done ((acc ++ swaps)%list, None) w1
           else fetchLoop graphAPI fuel (lastBlock swaps) (acc ++ swaps)%list w1
  end.
Proof.
  cbn [fetchLoop]. unfold bind, emit, ret. cbv zeta.
  destruct (graphAPI (posts (trace w)) c) as [err|swaps]; [reflexivity|].
  destruct (Z.of_nat (List.length swaps) =? 0); [reflexivity|].
  destruct (Z.of_nat (List.length swaps) <? pageSize); reflexivity.
Qed.

Lemma fetchSwaps_eq (fuel : nat) (w : World Config) :
  fetchSwaps graphAPI fuel w =
  fetchLoop graphAPI fuel (blockNumberOf (LastBlockNumber (data w))) [] w.
Proof. reflexivity. Qed.

(** The loop only adds POSTs to the trace, never panics, and returns no
    swaps together with an error. *)
Lemma fetchLoop_frame (fuel : nat) :
  forall c acc (w : World Config),
  match fetchLoop graphAPI fuel c acc w with
  | Done (l, e) w' =>
      (exists cs, w' = addEvents w (map (Post pageSize) cs))
      /\ (e <> None -> l = [])
      /\ (e = None -> exists more, l = (acc ++ more)%list)
  | Crashed _ => False
  | OutOfFuel => True
  end.
Proof.
  induction fuel as [|fuel IH]; intros c acc w; [exact I|].
  rewrite fetchLoop_step; cbv zeta.
  assert (Hone : exists cs, addEvents w [Post pageSize c]
                            = addEvents w (map (Post pageSize) cs))
    by (exists [c]; reflexivity).
  destruct (graphAPI (posts (trace w)) c) as [err|swaps].
  - repeat split; auto. discriminate.
  - destruct (Z.of_nat (List.length swaps) =? 0).
    { repeat split; auto; [congruence|]. exists []. now rewrite app_nil_r. }
    destruct (Z.of_nat (List.length swaps) <? pageSize).
    { repeat split; eauto. congruence. }
    specialize (IH (lastBlock swaps) (acc ++ swaps)%list
                   (addEvents w [Post pageSize c])).
    destruct (fetchLoop graphAPI fuel (lastBlock swaps) (acc ++ swaps)
                (addEvents w [Post pageSize c])) as [[l e] w'| |]; auto.
    destruct IH as [[cs ->] [He Hm]]. repeat split; auto.
    + exists (c :: cs). now rewrite addEvents_app.
    + intros Hn. destruct (Hm Hn) as [more ->].
      exists (swaps ++ more)%list. now rewrite app_assoc.
Qed.

(** A fetch that returns swaps returns the first page in front, and
    nothing at all when the first page is empty. *)
Lemma fetchLoop_first_page (fuel : nat) c acc (w w' : World Config) l :
  fetchLoop graphAPI fuel c acc w = Done (l, None) w' ->
  exists page more,
    graphAPI (posts (trace w)) c = Page page /\ l = (acc ++ page ++ more)%list
    /\ (page = [] -> more = []).
Proof.
  destruct fuel as [|fuel]; [discriminate|].
  rewrite fetchLoop_step; cbv zeta.
  destruct (graphAPI (posts (trace w)) c) as [err|swaps]; [discriminate|].
  destruct (Z.of_nat (List.length swaps) =? 0) eqn:H0.
  { intros [= <- _]. exists swaps, [].
    destruct swaps; [|discriminate]. now rewrite !app_nil_r. }
  destruct (Z.of_nat (List.length swaps) <? pageSize).
  { intros [= <- _]. exists swaps, []. now rewrite app_nil_r. }
  intros H.
  pose proof (fetchLoop_frame fuel (lastBlock swaps) (acc ++ swaps)%list
                (addEvents w [Post pageSize c])) as F.
  rewrite H in F. destruct F as (_ & _ & Hm).
  destruct (Hm eq_refl) as [more ->].
  exists swaps, more. rewrite app_assoc. repeat split.
  intros ->. discriminate.
Qed.

End Fetch.

(* ===================================================================== *)
(** ** The pass *)
(* ===================================================================== *)

Section Pass.
Context {L : GoLibs}.
Variable graphAPI : nat -> Z -> Response.

Lemma GraphTask_eq (fuel : nat) (w : World Config) :
  GraphTask graphAPI fuel w =
  match fetchSwaps graphAPI fuel w with
  | Done (_, Some err) w1 => Done (Some err) (addEvents w1 [Sleep 3])
  | Done ([], None) w1 => Done None w1
  | Done (first :: rest, None) w1 =>
      match notifyLoop (first :: rest) [] w1 with
      | Done newTxHashes w2 => Done None (checkpointed first newTxHashes w2)
      | Crashed w2 => Crashed w2
      | OutOfFuel => OutOfFuel
      end
  | Crashed w1 => Crashed w1
  | OutOfFuel => OutOfFuel
  end.
Proof.
  unfold GraphTask, bind.
  destruct (fetchSwaps graphAPI fuel w) as [[swaps e] w1| |];
    try reflexivity.
  destruct e as [err|]; [destruct swaps; reflexivity|].
  destruct swaps as [|first rest]; [reflexivity|].
  destruct (notifyLoop (first :: rest) [] w1) as [newTxHashes w2| |];
    try reflexivity.
  unfold checkpointed, saved, setLastBlockNumber, setCurrentTxHashes,
    saveConfig, writeFile, bind, get, put, ret; simpl.
  destruct (createOk (disk w2)); reflexivity.
Qed.

(** What the fetch leaves as it was. *)
Lemma fetchSwaps_frame (fuel : nat) (w : World Config) :
  match fetchSwaps graphAPI fuel w with
  | Done (l, e) w' =>
      (exists cs, w' = addEvents w (map (Post pageSize) cs))
      /\ (e <> None -> l = [])
  | Crashed _ => False
  | OutOfFuel => True
  end.
Proof.
  rewrite fetchSwaps_eq.
  pose proof (fetchLoop_frame graphAPI fuel
                (blockNumberOf (LastBlockNumber (data w))) [] w) as F.
  destruct (fetchLoop graphAPI fuel _ [] w) as [[l e] w'| |]; tauto.
Qed.

Lemma notification_Detected (targets : list string) (swap : Swap) b h :
  In (Detected b h) (notification targets swap) -> h = TransactionHash swap.
Proof.
  unfold notification, deliveries. intros [[= _ <-]|H]; [reflexivity|].
  exfalso. destruct (FormatSwap swap) as [message|]; [|exact H].
  destruct (String.eqb message ""); [exact H|].
  apply in_map_iff in H. destruct H as (? & ? & _). discriminate.
Qed.

End Pass.

(* ===================================================================== *)
(** ** Checkpointing *)
(* ===================================================================== *)

Section Checkpoint.
Context {L : GoLibs}.
Variable graphAPI : nat -> Z -> Response.


(** C7.  When the fetch of a pass returns an error it returns no swaps with
    it, and the pass returns that error with [configData] and the state
    file exactly as they were, so that the next pass starts from the same
    cursor. *)
Theorem fetch_error_leaves_state (fuel : nat) (w w1 : World Config)
  (swaps : list Swap) (err : error) :
  fetchSwaps graphAPI fuel w = Done (swaps, Some err) w1 ->
  swaps = []
  /\ exists w',
       GraphTask graphAPI fuel w = Done (Some err) w'
       /\ data w' = data w /\ disk w' = disk w
       /\ blockNumberOf (LastBlockNumber (data w'))
          = blockNumberOf (LastBlockNumber (data w)).
Proof.
  intros Hfetch.
  pose proof (fetchSwaps_frame graphAPI fuel w) as F.
  rewrite Hfetch in F. destruct F as [[cs ->] Hnil].
  assert (swaps = []) as -> by (apply Hnil; discriminate).
  split; [reflexivity|].
  rewrite GraphTask_eq, Hfetch.
  eexists; split; [reflexivity|]. repeat split.
Qed.

End Checkpoint.

(* ===================================================================== *)
(** ** Progress of the checkpoint and the dedup set *)
(* ===================================================================== *)

Section Progress.
Context {L : GoLibs}.
Variable graphAPI : nat -> Z -> Response.

(** The first swap of a fetch is in the first page the remote returned. *)
Lemma fetched_head_in_first_page (fuel : nat) (w w1 : World Config)
  (first : Swap) (rest : list Swap) :
  fetchSwaps graphAPI fuel w = Done (first :: rest, None) w1 ->
  exists page,
    graphAPI (posts (trace w)) (blockNumberOf (LastBlockNumber (data w)))
    = Page page /\ In first page.
Proof.
  rewrite fetchSwaps_eq. intros H.
  destruct (fetchLoop_first_page graphAPI _ _ _ _ _ _ H)
    as (page & more & Hpage & Heq & Hempty).
  exists page. split; [exact Hpage|].
  destruct page as [|p page'].
  - rewrite (Hempty eq_refl) in Heq. discriminate.
  - injection Heq as -> _. now left.
Qed.


(** C10.  With a remote that honours the block filter, the block number
    read from [LastBlockNumber] after a pass that returns is at least the
    one read before it. *)
Theorem lastBlockNumber_monotone (fuel : nat) (w w' : World Config)
  (r : option error) :
  honoursFilter graphAPI ->
  GraphTask graphAPI fuel w = Done r w' ->
  blockNumberOf (LastBlockNumber (data w))
  <= blockNumberOf (LastBlockNumber (data w')).
Proof.
  intros Hfilter Hpass.
  pose proof (fetchSwaps_frame graphAPI fuel w) as F.
  rewrite GraphTask_eq in Hpass.
  destruct (fetchSwaps graphAPI fuel w) as [[swaps e] w1| |] eqn:Hfetch;
    try discriminate.
  destruct F as [[cs ->] Hnil].
  destruct e as [err|].
  - rewrite (Hnil ltac:(discriminate)) in Hpass.
    injection Hpass as _ <-. reflexivity.
  - destruct swaps as [|first rest].
    + injection Hpass as _ <-. reflexivity.
    + destruct (fetched_head_in_first_page _ _ _ _ _ Hfetch)
        as (page & Hpage & Hin).
      pose proof (Hfilter _ _ _ Hpage _ Hin) as Hlt.
      destruct (notifyLoop (first :: rest) []
                  (addEvents w (map (Post pageSize) cs)))
        as [newTxHashes w2| |]; try discriminate.
      injection Hpass as _ <-. cbn [checkpointed data LastBlockNumber].
      lia.
Qed.

(** C3.  In a pass whose fetch returned [swaps], the events after the POSTs
    of the fetch are exactly those of [sendNotification] on a list of
    fetched swaps none of which carries a hash of the dedup set the pass
    started with; no "New swap detected" record, and so no GET, belongs to
    a swap with a known hash, whether the pass returns or panics. *)
Theorem known_hash_not_renotified (fuel : nat) (w w1 : World Config)
  (swaps : list Swap) :
  fetchSwaps graphAPI fuel w = Done (swaps, None) w1 ->
  exists notified w',
    (GraphTask graphAPI fuel w = Done None w'
     \/ GraphTask graphAPI fuel w = Crashed w')
    /\ trace w'
       = (trace w1
          ++ flat_map (notification (BarkAPIURLs (data w))) notified)%list
    /\ (forall s, In s notified ->
          In s swaps /\ ~ In (TransactionHash s) (CurrentTxHashes (data w)))
    /\ (forall b h, In h (CurrentTxHashes (data w)) ->
          ~ In (Detected b h)
               (flat_map (notification (BarkAPIURLs (data w))) notified)).
Proof.
  intros Hfetch.
  pose proof (fetchSwaps_frame graphAPI fuel w) as F.
  rewrite Hfetch in F. destruct F as [[cs ->] _].
  assert (Hatt : forall s, In s (attempted (CurrentTxHashes (data w)) swaps) ->
                 In s swaps /\ ~ In (TransactionHash s) (CurrentTxHashes (data w))).
  { intros s Hs. destruct (attempted_unknown _ _ _ Hs) as [Hin Hu].
    split; [exact Hin|]. now apply unknown_spec. }
  assert (Hdet : forall l,
            (forall s, In s l ->
               In s swaps /\ ~ In (TransactionHash s) (CurrentTxHashes (data w))) ->
            forall b h, In h (CurrentTxHashes (data w)) ->
            ~ In (Detected b h)
                 (flat_map (notification (BarkAPIURLs (data w))) l)).
  { intros l Hl b h Hh Hin. apply in_flat_map in Hin.
    destruct Hin as (s & Hs & Hev).
    apply notification_Detected in Hev. subst h.
    exact (proj2 (Hl s Hs) Hh). }
  rewrite GraphTask_eq, Hfetch.
  destruct swaps as [|first rest].
  - exists [], (addEvents w (map (Post pageSize) cs)).
    split; [now left|]. split; [cbn; now rewrite app_nil_r|].
    split; [intros s []|]. intros b h _ [].
  - rewrite notifyLoop_run. cbv zeta. cbn [data addEvents].
    exists (attempted (CurrentTxHashes (data w)) (first :: rest)).
    destruct (forallb returns
                (attempted (CurrentTxHashes (data w)) (first :: rest))).
    + eexists. split; [left; reflexivity|].
      split; [reflexivity|]. split; [exact Hatt|]. apply Hdet, Hatt.
    + eexists. split; [right; reflexivity|].
      split; [reflexivity|]. split; [exact Hatt|]. apply Hdet, Hatt.
Qed.

End Progress.

(* ===================================================================== *)
(** ** Pagination *)
(* ===================================================================== *)

Section Pagination.
Context {L : GoLibs}.
Variable graphAPI : nat -> Z -> Response.

Lemma fetchLoop_serves (n : nat) (cursor : Z) (pages : list (list Swap))
  (final : list Swap) :
  Serves graphAPI n cursor pages final ->
  forall (acc : list Swap) (w : World Config), n = posts (trace w) ->
  (forall fuel, (List.length pages < fuel)%nat ->
     fetchLoop graphAPI fuel cursor acc w
     = Done ((acc ++ List.concat pages ++ final)%list, None)
            (addEvents w (map (Post pageSize) (cursors cursor pages))))
  /\ (forall fuel, (fuel <= List.length pages)%nat ->
        fetchLoop graphAPI fuel cursor acc w = OutOfFuel).
Proof.
  induction 1 as [n cursor final Hpage Hshort
                 |n cursor page pages final Hpage Hfull _ IH];
    intros acc w ->.
  - split; intros fuel Hfuel; cbn [List.length] in Hfuel.
    + destruct fuel as [|fuel]; [lia|].
      rewrite fetchLoop_step, Hpage. cbv zeta. cbn [List.concat app cursors map].
      destruct (Z.eqb_spec (Z.of_nat (List.length final)) 0) as [H0|H0].
      * destruct final; [|discriminate]. now rewrite app_nil_r.
      * destruct (Z.ltb_spec (Z.of_nat (List.length final)) pageSize);
          [reflexivity|lia].
    + assert (fuel = O) as -> by lia. reflexivity.
  - specialize (IH (acc ++ page)%list (addEvents w [Post pageSize cursor])).
    destruct IH as [IHdone IHmore].
    { cbn [trace addEvents]. rewrite posts_app. cbn. lia. }
    assert (Hstep : forall fuel,
              fetchLoop graphAPI (S fuel) cursor acc w
              = fetchLoop graphAPI fuel (lastBlock page) (acc ++ page)%list
                  (addEvents w [Post pageSize cursor])).
    { intros fuel. rewrite fetchLoop_step, Hpage. cbv zeta.
      destruct (Z.eqb_spec (Z.of_nat (List.length page)) 0) as [H0|H0];
        [unfold pageSize in Hfull; lia|].
      destruct (Z.ltb_spec (Z.of_nat (List.length page)) pageSize);
        [lia|reflexivity]. }
    split; intros fuel Hfuel; cbn [List.length] in Hfuel.
    + destruct fuel as [|fuel]; [lia|].
      rewrite Hstep, IHdone by lia.
      rewrite addEvents_app. cbn [List.concat cursors map app].
      now rewrite <- !app_assoc.
    + destruct fuel as [|fuel]; [reflexivity|].
      rewrite Hstep. apply IHmore. lia.
Qed.

(** As long as every page is full the loop goes on: with a remote that
    never returns a short page no amount of fuel lets the fetch return. *)
Lemma fetch_never_returns_on_full_pages :
  (forall n c, exists page,
      graphAPI n c = Page page /\ pageSize <= Z.of_nat (List.length page)) ->
  forall fuel c acc (w : World Config),
    fetchLoop graphAPI fuel c acc w = OutOfFuel.
Proof.
  intros Hfull fuel.
  induction fuel as [|fuel IH]; intros c acc w; [reflexivity|].
  rewrite fetchLoop_step. cbv zeta.
  destruct (Hfull (posts (trace w)) c) as (page & -> & Hlen).
  destruct (Z.eqb_spec (Z.of_nat (List.length page)) 0);
    [unfold pageSize in Hlen; lia|].
  destruct (Z.ltb_spec (Z.of_nat (List.length page)) pageSize); [lia|].
  apply IH.
Qed.

(** Conversely, a fetch that returns without an error was served full
    pages and then a short one, and asked for them with these cursors. *)
Lemma fetchLoop_returns_served (fuel : nat) :
  forall (cursor : Z) (acc : list Swap) (w w' : World Config) (l : list Swap),
  fetchLoop graphAPI fuel cursor acc w = Done (l, None) w' ->
  exists pages final,
    Serves graphAPI (posts (trace w)) cursor pages final
    /\ (List.length pages < fuel)%nat
    /\ l = (acc ++ List.concat pages ++ final)%list
    /\ w' = addEvents w (map (Post pageSize) (cursors cursor pages)).
Proof.
  induction fuel as [|fuel IH]; intros cursor acc w w' l; [discriminate|].
  rewrite fetchLoop_step. cbv zeta.
  destruct (graphAPI (posts (trace w)) cursor) as [err|swaps] eqn:Hpage;
    [discriminate|].
  destruct (Z.eqb_spec (Z.of_nat (List.length swaps)) 0) as [H0|H0].
  { intros [= <- <-]. exists [], swaps.
    split; [apply serves_final; [exact Hpage|unfold pageSize; lia]|].
    split; [cbn; lia|]. destruct swaps; [|discriminate].
    split; [now rewrite app_nil_r|reflexivity]. }
  destruct (Z.ltb_spec (Z.of_nat (List.length swaps)) pageSize) as [Hlt|Hge].
  { intros [= <- <-]. exists [], swaps.
    split; [apply serves_final; assumption|].
    split; [cbn; lia|]. split; reflexivity. }
  intros Hrun.
  destruct (IH _ _ _ _ _ Hrun) as (pages & final & Hs & Hlen & -> & ->).
  exists (swaps :: pages), final.
  split.
  { apply serves_full; [exact Hpage|exact Hge|].
    cbn [trace addEvents] in Hs. rewrite posts_app in Hs. cbn in Hs.
    now rewrite Nat.add_1_r in Hs. }
  split; [cbn; lia|].
  split; [cbn [List.concat]; now rewrite <- !app_assoc|].
  now rewrite addEvents_app.
Qed.

(** The block number the loop reads after a page is that of its last
    element. *)
Lemma lastBlock_last_element (front : list Swap) (lastSwap : Swap) :
  lastBlock (front ++ [lastSwap]) = blockNumberOf (BlockNumber lastSwap).
Proof. unfold lastBlock. rewrite rev_unit. reflexivity. Qed.

Lemma Serves_Paginated (n : nat) (cursor : Z) (pages : list (list Swap))
  (final : list Swap) :
  Serves graphAPI n cursor pages final ->
  exists cursors,
    Paginated graphAPI n cursor pages final cursors
    /\ cursors = cursor :: map lastBlock pages.
Proof.
  induction 1 as [n cursor final Hpage Hshort
                 |n cursor page pages final Hpage Hfull _ IH].
  - exists [cursor]. split; [|reflexivity]. now apply paginated_final.
  - destruct IH as (cursors & Hp & ->).
    assert (Hne : page <> []).
    { intros ->. cbn in Hfull. unfold pageSize in Hfull. lia. }
    destruct (exists_last Hne) as (front & lastSwap & ->).
    rewrite lastBlock_last_element in Hp.
    exists (cursor :: blockNumberOf (BlockNumber lastSwap) :: map lastBlock pages).
    split.
    + apply paginated_full; [exact Hpage|exact Hfull|exact Hp].
    + cbn [map]. now rewrite lastBlock_last_element.
Qed.

Lemma Paginated_Serves (n : nat) (cursor : Z) (pages : list (list Swap))
  (final : list Swap) (cursors : list Z) :
  Paginated graphAPI n cursor pages final cursors ->
  Serves graphAPI n cursor pages final
  /\ cursors = cursor :: map lastBlock pages.
Proof.
  induction 1 as [n cursor final Hpage Hshort
                 |n cursor front lastSwap pages final cursors Hpage Hfull _ IH].
  - split; [now apply serves_final|reflexivity].
  - destruct IH as [Hs ->].
    rewrite <- (lastBlock_last_element front lastSwap) in Hs.
    split; [now apply serves_full|].
    cbn [map]. now rewrite lastBlock_last_element.
Qed.

(** C8.  [fetchSwaps] returns swaps without an error exactly when the
    remote answered its requests by full pages (50 records or more each)
    and then by a first page of fewer than 50 records (possibly none),
    within the fuel: it stops at that page and not before, whatever the
    number of records, it returns all the pages in order, and it has sent
    one POST per page, the first with the cursor read from
    [LastBlockNumber] and each later one with the block number of the last
    element of the page before. *)
Theorem pagination_stops_at_first_short_page (fuel : nat)
  (w w' : World Config) (l : list Swap) :
  let start := blockNumberOf (LastBlockNumber (data w)) in
  fetchSwaps graphAPI fuel w = Done (l, None) w'
  <-> exists pages final cursors,
        Paginated graphAPI (posts (trace w)) start pages final cursors
        /\ (List.length pages < fuel)%nat
        /\ l = (List.concat pages ++ final)%list
        /\ w' = addEvents w (map (Post 50) cursors).
Proof.
  intros start. rewrite fetchSwaps_eq. fold start. split.
  - intros Hrun.
    destruct (fetchLoop_returns_served _ _ _ _ _ _ Hrun)
      as (pages & final & Hserves & Hfuel & Hl & Hw).
    destruct (Serves_Paginated _ _ _ _ Hserves) as (cursors & Hp & Hc).
    exists pages, final, cursors.
    split; [exact Hp|]. split; [exact Hfuel|]. split; [exact Hl|].
    rewrite Hc. exact Hw.
  - intros (pages & final & cursors & Hp & Hfuel & -> & ->).
    destruct (Paginated_Serves _ _ _ _ _ Hp) as [Hserves ->].
    destruct (fetchLoop_serves _ _ _ _ Hserves [] w eq_refl) as [Hdone _].
    exact (Hdone fuel Hfuel).
Qed.

(** Before the first short page the fetch has not returned. *)
Lemma pagination_not_before (w : World Config)
  (pages : list (list Swap)) (final : list Swap) (fuel : nat) :
  Serves graphAPI (posts (trace w)) (blockNumberOf (LastBlockNumber (data w)))
         pages final ->
  (fuel <= List.length pages)%nat ->
  fetchSwaps graphAPI fuel w = OutOfFuel.
Proof.
  intros Hserves Hfuel. rewrite fetchSwaps_eq.
  destruct (fetchLoop_serves _ _ _ _ Hserves [] w eq_refl) as [_ Hmore].
  exact (Hmore fuel Hfuel).
Qed.

End Pagination.

(* ===================================================================== *)
(** ** The formatter and the notifier *)
(* ===================================================================== *)

Section Notifier.
Context {L : GoLibs}.

(** An [amount0] that does not parse leaves a nil pointer, and the first
    use of it panics. *)
Lemma FormatSwap_nil_amount0 (swap : Swap) :
  SetString (Amount0 swap) = None -> FormatSwap swap = Panics.
Proof. unfold FormatSwap. intros ->. reflexivity. Qed.

(** So does an [amount1] that does not parse, in both directions. *)
Lemma FormatSwap_nil_amount1 (swap : Swap) :
  SetString (Amount1 swap) = None -> FormatSwap swap = Panics.
Proof.
  unfold FormatSwap. intros ->.
  destruct (SetString (Amount0 swap)) as [a0|]; [|reflexivity].
  cbn [deref rbind]. destruct (Sign a0 <? 0); reflexivity.
Qed.

(** A timestamp that does not parse is handled: the message is empty. *)
Lemma FormatSwap_bad_timestamp (swap : Swap) (message : string) (e : Strconv.NumError) :
  FormatSwap swap = Returns message ->
  snd (Strconv.ParseInt (BlockTimestamp swap)) = Some e ->
  message = "".
Proof.
  unfold FormatSwap. intros H He.
  destruct (Strconv.ParseInt (BlockTimestamp swap)) as [t [e'|]];
    [|discriminate].
  repeat match type of H with
         | rbind ?r _ = _ =>
             let x := fresh in
             destruct r as [x|]; cbn [rbind] in H; [|discriminate];
             try (destruct x as [[[? ?] ?] ?])
         end.
  now injection H.
Qed.

(** The message of a swap whose fields all decode. *)
Lemma FormatSwap_message (swap : Swap) (a0 a1 vol : Float) (timestamp : Z) :
  SetString (Amount0 swap) = Some a0 ->
  SetString (Amount1 swap) = Some a1 ->
  Strconv.ParseInt (BlockTimestamp swap) = (timestamp, None) ->
  Mul (if Sign a0 <? 0 then a1 else a0) (wbtcPrice swap) = Some vol ->
  exists qin qout qvol,
    Quo (if Sign a0 <? 0 then a1 else a0) (NewFloat 100000000) = Some qin
    /\ Quo (if Sign a0 <? 0 then Neg a0 else Neg a1) (NewFloat 100000000)
       = Some qout
    /\ Quo vol (NewFloat 100000000) = Some qvol
    /\ FormatSwap swap
       = Returns (formatTime timestamp ++ "  " ++ Text qin 5 ++ " "
                  ++ (if Sign a0 <? 0 then "WBTC" else "UNIBTC") ++ " -> "
                  ++ Text qout 5 ++ " "
                  ++ (if Sign a0 <? 0 then "UNIBTC" else "WBTC")
                  ++ " Vol: $" ++ Text qvol 2).
Proof.
  intros H0 H1 Ht Hm. unfold FormatSwap. rewrite H0, H1, Ht.
  cbn [deref rbind].
  pose proof (Quo_1e8 (if Sign a0 <? 0 then a1 else a0)) as Qin.
  pose proof (Quo_1e8 (if Sign a0 <? 0 then Neg a0 else Neg a1)) as Qout.
  pose proof (Quo_1e8 vol) as Qvol.
  destruct (Sign a0 <? 0); cbn [deref rbind]; rewrite Hm; cbn [deref rbind];
    destruct (Quo _ _) as [qin|] in Qin |- *; try congruence;
    destruct (Quo _ _) as [qout|] in Qout |- *; try congruence;
    destruct (Quo vol _) as [qvol|]; try congruence;
    cbn [deref rbind]; exists qin, qout, qvol; repeat split.
Qed.

(** C4, as amended.  For a swap whose [amount0], [amount1] and
    [blockTimestamp] all parse and whose volume is a number: when [amount0]
    is negative the message shows [amount1] WBTC in and [-amount0] UNIBTC
    out; otherwise it shows [amount0] UNIBTC in and [-amount1] WBTC out. *)
Theorem FormatSwap_direction (swap : Swap) (a0 a1 : Float) (timestamp : Z) :
  SetString (Amount0 swap) = Some a0 ->
  SetString (Amount1 swap) = Some a1 ->
  Strconv.ParseInt (BlockTimestamp swap) = (timestamp, None) ->
  (Sign a0 < 0 ->
   Mul a1 (wbtcPrice swap) <> None ->
   exists message,
     FormatSwap swap = Returns message
     /\ reports message "WBTC" "UNIBTC" a1 (Neg a0))
  /\ (0 <= Sign a0 ->
      Mul a0 (wbtcPrice swap) <> None ->
      exists message,
        FormatSwap swap = Returns message
        /\ reports message "UNIBTC" "WBTC" a0 (Neg a1)).
Proof.
  intros H0 H1 Ht.
  split; intros Hsign Hmul.
  - destruct (Mul a1 (wbtcPrice swap)) as [vol|] eqn:Hm; [|congruence].
    destruct (FormatSwap_message swap a0 a1 vol timestamp H0 H1 Ht)
      as (qin & qout & qvol & Hin & Hout & _ & Hmsg).
    { destruct (Z.ltb_spec (Sign a0) 0); [exact Hm|lia]. }
    destruct (Z.ltb_spec (Sign a0) 0); [|lia].
    eexists; split; [exact Hmsg|].
    exists (formatTime timestamp), (Text qvol 2), qin, qout. auto.
  - destruct (Mul a0 (wbtcPrice swap)) as [vol|] eqn:Hm; [|congruence].
    destruct (FormatSwap_message swap a0 a1 vol timestamp H0 H1 Ht)
      as (qin & qout & qvol & Hin & Hout & _ & Hmsg).
    { destruct (Z.ltb_spec (Sign a0) 0); [lia|exact Hm]. }
    destruct (Z.ltb_spec (Sign a0) 0); [lia|].
    eexists; split; [exact Hmsg|].
    exists (formatTime timestamp), (Text qvol 2), qin, qout. auto.
Qed.

(** No message is empty and shows a swap. *)
Lemma reports_nonempty tokenIn tokenOut (amountIn amountOut : Float) :
  ~ reports "" tokenIn tokenOut amountIn amountOut.
Proof.
  intros (time & vol & qin & qout & _ & _ & H).
  destruct time; discriminate.
Qed.


End Notifier.

(* ===================================================================== *)
(** ** Loading the state *)
(* ===================================================================== *)

Section Loading.
Context {L : GoLibs}.
Variable encodeStorage : Legacy.Storage -> string.
Variable decodeInto : Legacy.Storage -> string -> option Legacy.Storage.


End Loading.

(* ===================================================================== *)
(** ** The older variant *)
(* ===================================================================== *)

Section LegacyRuns.
Context {L : GoLibs}.
Variable encodeStorage : Legacy.Storage -> string.
Variable decodeInto : Legacy.Storage -> string -> option Legacy.Storage.
Variable graphAPI : nat -> Z -> Response.

Lemma legacy_fetchLoop_step (fuel : nat) (c : Z) (acc : list Swap)
  (w : World Legacy.Storage) :
  Legacy.fetchLoop graphAPI (S fuel) c acc w =
  let w1 := addEvents w [Post pageSize c] in
  match graphAPI (posts (trace w)) c with
  | Failed err => Done ([], Some err) w1
  | Page swaps =>
      if Z.of_nat (List.length swaps) =? 0 then Done (acc, None) w1
      else
        match Strconv.Atoi (Legacy.lastBlockNumber swaps) with
        | (_, Some e) =>
            Done ([], Some (NumError e (Legacy.lastBlockNumber swaps))) w1
        | (next, None) =>
            if Z.of_nat (List.length swaps) <? pageSize
            then Done ((acc ++ swaps)%list, None) w1
            else Legacy.fetchLoop graphAPI fuel next (acc ++ swaps)%list w1
        end
  end.
Proof.
  cbn [Legacy.fetchLoop]. unfold bind, emit, ret. cbv zeta.
  destruct (graphAPI (posts (trace w)) c) as [err|swaps]; [reflexivity|].
  destruct (Z.of_nat (List.length swaps) =? 0); [reflexivity|].
  destruct (Strconv.Atoi (Legacy.lastBlockNumber swaps)) as [next [e|]];
    [reflexivity|].
  destruct (Z.of_nat (List.length swaps) <? pageSize); reflexivity.
Qed.

(** In the older variant a page with records whose last block number is
    not a number also ends the fetch, with an error and no swaps. *)
Lemma legacy_fetch_stops_on_bad_block_number (fuel : nat) (c next : Z)
  (acc swaps : list Swap) (e : Strconv.NumError) (w : World Legacy.Storage) :
  graphAPI (posts (trace w)) c = Page swaps ->
  swaps <> [] ->
  Strconv.Atoi (Legacy.lastBlockNumber swaps) = (next, Some e) ->
  Legacy.fetchLoop graphAPI (S fuel) c acc w
  = Done ([], Some (NumError e (Legacy.lastBlockNumber swaps)))
         (addEvents w [Post pageSize c]).
Proof.
  intros Hpage Hne Hbad. rewrite legacy_fetchLoop_step, Hpage. cbv zeta.
  destruct swaps as [|s swaps]; [contradiction|].
  rewrite Hbad. reflexivity.
Qed.

Lemma legacy_fetchLoop_serves (n : nat) (cursor : Z)
  (pages : list (list Swap)) (final : list Swap) :
  ServesLegacy graphAPI n cursor pages final ->
  forall (acc : list Swap) (w : World Legacy.Storage), n = posts (trace w) ->
  (forall fuel, (List.length pages < fuel)%nat ->
     exists cs,
       Legacy.fetchLoop graphAPI fuel cursor acc w
       = Done ((acc ++ List.concat pages ++ final)%list, None)
              (addEvents w (map (Post pageSize) cs))
       /\ List.length cs = S (List.length pages))
  /\ (forall fuel, (fuel <= List.length pages)%nat ->
        Legacy.fetchLoop graphAPI fuel cursor acc w = OutOfFuel).
Proof.
  induction 1 as [n cursor Hpage
                 |n cursor final next Hpage Hshort Hnum
                 |n cursor page pages final next Hpage Hfull Hnum _ IH];
    intros acc w ->.
  - split; intros fuel Hfuel; cbn [List.length] in Hfuel.
    + destruct fuel as [|fuel]; [lia|]. exists [cursor].
      rewrite legacy_fetchLoop_step, Hpage. cbn. now rewrite app_nil_r.
    + assert (fuel = O) as -> by lia. reflexivity.
  - split; intros fuel Hfuel; cbn [List.length] in Hfuel.
    + destruct fuel as [|fuel]; [lia|]. exists [cursor].
      rewrite legacy_fetchLoop_step, Hpage. cbv zeta. rewrite Hnum.
      destruct (Z.eqb_spec (Z.of_nat (List.length final)) 0); [lia|].
      destruct (Z.ltb_spec (Z.of_nat (List.length final)) pageSize); [|lia].
      split; reflexivity.
    + assert (fuel = O) as -> by lia. reflexivity.
  - specialize (IH (acc ++ page)%list (addEvents w [Post pageSize cursor])).
    destruct IH as [IHdone IHmore].
    { cbn [trace addEvents]. rewrite posts_app. cbn. lia. }
    assert (Hstep : forall fuel,
              Legacy.fetchLoop graphAPI (S fuel) cursor acc w
              = Legacy.fetchLoop graphAPI fuel next (acc ++ page)%list
                  (addEvents w [Post pageSize cursor])).
    { intros fuel. rewrite legacy_fetchLoop_step, Hpage. cbv zeta. rewrite Hnum.
      destruct (Z.eqb_spec (Z.of_nat (List.length page)) 0);
        [unfold pageSize in Hfull; lia|].
      destruct (Z.ltb_spec (Z.of_nat (List.length page)) pageSize);
        [lia|reflexivity]. }
    split; intros fuel Hfuel; cbn [List.length] in Hfuel.
    + destruct fuel as [|fuel]; [lia|].
      destruct (IHdone fuel ltac:(lia)) as (cs & Hrun & Hlen).
      exists (cursor :: cs). rewrite Hstep, Hrun, addEvents_app.
      cbn [List.concat map app List.length]. rewrite <- !app_assoc.
      split; [reflexivity|lia].
    + destruct fuel as [|fuel]; [reflexivity|].
      rewrite Hstep. apply IHmore. lia.
Qed.

(** The fetch of the older variant only adds POSTs, and returns no swaps
    together with an error. *)
Lemma legacy_fetchLoop_frame (fuel : nat) :
  forall c acc (w : World Legacy.Storage),
  match Legacy.fetchLoop graphAPI fuel c acc w with
  | Done (l, e) w' =>
      (exists cs, w' = addEvents w (map (Post pageSize) cs))
      /\ (e <> None -> l = [])
  | Crashed _ => False
  | OutOfFuel => True
  end.
Proof.
  induction fuel as [|fuel IH]; intros c acc w; [exact I|].
  rewrite legacy_fetchLoop_step; cbv zeta.
  assert (Hone : exists cs, addEvents w [Post pageSize c]
                            = addEvents w (map (Post pageSize) cs))
    by (exists [c]; reflexivity).
  destruct (graphAPI (posts (trace w)) c) as [err|swaps]; [auto|].
  destruct (Z.of_nat (List.length swaps) =? 0); [split; [auto|congruence]|].
  destruct (Strconv.Atoi (Legacy.lastBlockNumber swaps)) as [next [e|]];
    [auto|].
  destruct (Z.of_nat (List.length swaps) <? pageSize);
    [split; [auto|congruence]|].
  specialize (IH next (acc ++ swaps)%list (addEvents w [Post pageSize c])).
  destruct (Legacy.fetchLoop graphAPI fuel next (acc ++ swaps)
              (addEvents w [Post pageSize c])) as [[l e] w'| |]; auto.
  destruct IH as [[cs ->] He]. split; [|exact He].
  exists (c :: cs). now rewrite addEvents_app.
Qed.




End LegacyRuns.

(* ===================================================================== *)
(** ** What the notifier's GET requests *)
(* ===================================================================== *)

Section Strings.
Import NetURL.


Lemma append_nil_r (a : string) : a ++ "" = a.
Proof. induction a as [|x a IH]; cbn; [reflexivity|now rewrite IH]. Qed.

Lemma anyByte_app (p : ascii -> bool) (a b : string) :
  anyByte p (a ++ b) = anyByte p a || anyByte p b.
Proof.
  induction a as [|x a IH]; cbn; [reflexivity|].
  now rewrite IH, orb_assoc.
Qed.





Lemma plain_app (a b : string) : plain (a ++ b) = plain a && plain b.
Proof. unfold plain. now rewrite anyByte_app, negb_orb. Qed.

Lemma plain_cons (c : ascii) (s : string) :
  plain (String c s)
  = negb (anyByte (Ascii.eqb c) "%?#/;," || isCTL c) && plain s.
Proof. unfold plain. cbn [anyByte]. apply negb_orb. Qed.














Section Requests.
Variable parseAuthority : string -> option string.



End Requests.
End Strings.

Section Delivery.
Context {L : GoLibs}.
Variable parseAuthority : string -> option string.


(** With a time layout and a number format that write no [% ? # / ; ,]
    and no control byte, as the ones of the code do, every message of
    [FormatSwap] is plain. *)
Lemma FormatSwap_plain (swap : Swap) (message : string) :
  (forall t, NetURL.plain (formatTime t) = true) ->
  (forall x digits, NetURL.plain (Text x digits) = true) ->
  FormatSwap swap = Returns message ->
  NetURL.plain message = true.
Proof.
  unfold FormatSwap. intros Htime Htext H.
  destruct (SetString (Amount0 swap)) as [a0|];
    cbn [deref rbind] in H; [|discriminate].
  destruct (Sign a0 <? 0);
    [|destruct (SetString (Amount1 swap)) as [a1|];
      cbn [deref rbind] in H; [|discriminate]];
    cbn [rbind] in H;
    repeat match type of H with
           | rbind ?r _ = _ =>
               destruct r; cbn [rbind] in H; [|discriminate]
           end;
    destruct (Strconv.ParseInt (BlockTimestamp swap)) as [t [e|]];
    injection H as <-; try reflexivity;
    repeat first [rewrite plain_app | rewrite plain_cons
                 | rewrite Htime | rewrite Htext];
    reflexivity.
Qed.


End Delivery.

(* ===================================================================== *)
(** ** More on the fetch and the pass *)
(* ===================================================================== *)

(** X1.  [contains] answers true exactly for the elements of the slice. *)
Theorem contains_true_iff (slice : list string) (item : string) :
  contains slice item = true <-> In item slice.
Proof.
  induction slice as [|s rest IH]; cbn [contains In].
  - split; [discriminate|intros []].
  - destruct (String.eqb s item) eqn:E.
    + apply String.eqb_eq in E. split; auto.
    + apply String.eqb_neq in E. rewrite IH.
      split; [auto|]. intros [H|H]; [contradiction|exact H].
Qed.

Section MorePass.
Context {L : GoLibs}.
Variable graphAPI : nat -> Z -> Response.

(** The requests of a fetch that returns: at least one, at most [fuel],
    the first with the cursor it was started with. *)
Lemma fetchLoop_posts (fuel : nat) :
  forall c acc (w w' : World Config) r,
  fetchLoop graphAPI fuel c acc w = Done r w' ->
  exists cs,
    w' = addEvents w (map (Post pageSize) (c :: cs))
    /\ (List.length cs < fuel)%nat.
Proof.
  induction fuel as [|fuel IH]; intros c acc w w' r; [discriminate|].
  rewrite fetchLoop_step; cbv zeta.
  destruct (graphAPI (posts (trace w)) c) as [err|swaps].
  { intros [= _ <-]. exists []. split; [reflexivity|cbn; lia]. }
  destruct (Z.of_nat (List.length swaps) =? 0).
  { intros [= _ <-]. exists []. split; [reflexivity|cbn; lia]. }
  destruct (Z.of_nat (List.length swaps) <? pageSize).
  { intros [= _ <-]. exists []. split; [reflexivity|cbn; lia]. }
  intros Hrun. destruct (IH _ _ _ _ _ Hrun) as (cs & -> & Hlen).
  exists (lastBlock swaps :: cs). split; [|cbn; lia].
  now rewrite addEvents_app.
Qed.

(** X2.  [fetchSwaps] never panics, and when it returns it has left
    [configData] and the state file alone and has only added POSTs of page
    size 50 to the trace: at least one and at most [fuel], the first asking
    above the block number read from [LastBlockNumber]. *)
Theorem fetch_only_posts (fuel : nat) (w : World Config) :
  (forall w', fetchSwaps graphAPI fuel w <> Crashed w')
  /\ (forall r w', fetchSwaps graphAPI fuel w = Done r w' ->
      data w' = data w /\ disk w' = disk w
      /\ exists cs,
           trace w'
           = (trace w
              ++ map (Post 50)
                     (blockNumberOf (LastBlockNumber (data w)) :: cs))%list
           /\ (List.length cs < fuel)%nat).
Proof.
  split.
  - intros w' H. pose proof (fetchSwaps_frame graphAPI fuel w) as F.
    rewrite H in F. exact F.
  - intros r w' H. rewrite fetchSwaps_eq in H.
    destruct (fetchLoop_posts _ _ _ _ _ _ H) as (cs & -> & Hlen).
    repeat split. exists cs. split; [reflexivity|exact Hlen].
Qed.

(** X3.  A pass whose fetch returns no swap and no error ends there: it
    returns nil in the world the fetch left, with [configData] and the
    state file as they were and no write attempted. *)
Theorem empty_fetch_is_noop (fuel : nat) (w w1 : World Config) :
  fetchSwaps graphAPI fuel w = Done ([], None) w1 ->
  GraphTask graphAPI fuel w = Done None w1
  /\ data w1 = data w /\ disk w1 = disk w.
Proof.
  intros Hfetch. rewrite GraphTask_eq, Hfetch. split; [reflexivity|].
  pose proof (fetchSwaps_frame graphAPI fuel w) as F.
  rewrite Hfetch in F. destruct F as [[cs ->] _]. split; reflexivity.
Qed.

(** The loop of the pass never touches [configData] or the disk. *)
Lemma notifyLoop_frame (swaps : list Swap) (acc : list string)
  (w w' : World Config) :
  finalWorld (notifyLoop swaps acc w) = Some w' ->
  data w' = data w /\ disk w' = disk w.
Proof.
  rewrite notifyLoop_run. cbv zeta.
  destruct (forallb returns _); intros [= <-]; split; reflexivity.
Qed.

(** X4.  A pass panics only in [FormatSwap], on a fetched swap whose hash
    is not in the dedup set, and it then ends before the checkpoint:
    [configData] and the state file are as they were. *)
Theorem panic_leaves_checkpoint (fuel : nat) (w w' : World Config) :
  GraphTask graphAPI fuel w = Crashed w' ->
  data w' = data w /\ disk w' = disk w
  /\ exists swaps w1 swap,
       fetchSwaps graphAPI fuel w = Done (swaps, None) w1
       /\ In swap swaps
       /\ ~ In (TransactionHash swap) (CurrentTxHashes (data w))
       /\ FormatSwap swap = Panics.
Proof.
  intros Hpass. rewrite GraphTask_eq in Hpass.
  pose proof (fetchSwaps_frame graphAPI fuel w) as F.
  destruct (fetchSwaps graphAPI fuel w) as [[swaps e] w1| |] eqn:Hfetch;
    try discriminate; [|contradiction].
  destruct F as [[cs ->] _].
  destruct e as [err|]; [destruct swaps; discriminate|].
  destruct swaps as [|first rest]; [discriminate|].
  rewrite notifyLoop_run in Hpass. cbv zeta in Hpass.
  cbn [data addEvents] in Hpass.
  destruct (forallb returns
              (attempted (CurrentTxHashes (data w)) (first :: rest))) eqn:Hall;
    [discriminate|].
  injection Hpass as <-. split; [reflexivity|]. split; [reflexivity|].
  assert (Hex : exists swap,
             In swap (attempted (CurrentTxHashes (data w)) (first :: rest))
             /\ returns swap = false).
  { revert Hall. generalize (attempted (CurrentTxHashes (data w)) (first :: rest)).
    intros l. induction l as [|a l IH]; cbn [forallb]; [discriminate|].
    destruct (returns a) eqn:Ha; cbn [andb].
    - intros H. destruct (IH H) as (s & Hs & Hr). exists s. split; [now right|exact Hr].
    - intros _. exists a. split; [now left|exact Ha]. }
  destruct Hex as (swap & Hatt & Hret).
  destruct (attempted_unknown _ _ _ Hatt) as [Hin Hunk].
  exists (first :: rest), (addEvents w (map (Post pageSize) cs)), swap.
  split; [reflexivity|]. split; [exact Hin|].
  split; [now apply unknown_spec|].
  unfold returns in Hret. destruct (FormatSwap swap); [discriminate|reflexivity].
Qed.

(** What a pass does to the checkpoint when it returns: nothing, or it
    moves it to the first swap of the first page and keeps the targets. *)
Lemma pass_checkpoint_cases (fuel : nat) (w w' : World Config)
  (r : option error) :
  GraphTask graphAPI fuel w = Done r w' ->
  data w' = data w
  \/ exists page first,
       graphAPI (posts (trace w)) (blockNumberOf (LastBlockNumber (data w)))
       = Page page
       /\ In first page
       /\ LastBlockNumber (data w') = BlockNumber first
       /\ BarkAPIURLs (data w') = BarkAPIURLs (data w).
Proof.
  intros Hpass. rewrite GraphTask_eq in Hpass.
  pose proof (fetchSwaps_frame graphAPI fuel w) as F.
  destruct (fetchSwaps graphAPI fuel w) as [[swaps e] w1| |] eqn:Hfetch;
    try discriminate.
  destruct F as [[cs ->] Hnil].
  destruct e as [err|].
  { rewrite (Hnil ltac:(discriminate)) in Hpass.
    injection Hpass as _ <-. now left. }
  destruct swaps as [|first rest].
  { injection Hpass as _ <-. now left. }
  right.
  destruct (fetched_head_in_first_page _ _ _ _ _ _ Hfetch)
    as (page & Hpage & Hin).
  exists page, first. split; [exact Hpage|]. split; [exact Hin|].
  rewrite notifyLoop_run in Hpass. cbv zeta in Hpass.
  destruct (forallb returns _); [|discriminate].
  injection Hpass as _ <-. split; reflexivity.
Qed.

(** The events of one notification with no target hold no GET. *)
Lemma notification_no_target (swap : Swap) :
  forallb (fun e => negb (isGet e)) (notification [] swap) = true.
Proof.
  unfold notification, deliveries.
  destruct (FormatSwap swap) as [message|]; [|reflexivity].
  destruct (String.eqb message ""); reflexivity.
Qed.

(** X5.  With no target configured a pass sends no GET at all, whatever it
    fetches and however it ends. *)
Theorem no_target_no_get (fuel : nat) (w w' : World Config) :
  BarkAPIURLs (data w) = [] ->
  finalWorld (GraphTask graphAPI fuel w) = Some w' ->
  exists evs,
    trace w' = (trace w ++ evs)%list
    /\ forall url, ~ In (Get url) evs.
Proof.
  intros Hnone Hend. rewrite GraphTask_eq in Hend.
  pose proof (fetchSwaps_frame graphAPI fuel w) as F.
  destruct (fetchSwaps graphAPI fuel w) as [[swaps e] w1| |];
    [|contradiction|discriminate].
  destruct F as [[cs ->] _].
  assert (Hposts : forall url, ~ In (Get url) (map (Post pageSize) cs)).
  { intros url H. apply in_map_iff in H. destruct H as (? & ? & _). discriminate. }
  destruct e as [err|].
  { destruct swaps; injection Hend as <-;
      (exists (map (Post pageSize) cs ++ [Sleep 3])%list;
       split; [cbn; now rewrite <- app_assoc|];
       intros url H; apply in_app_or in H; destruct H as [H|[H|[]]];
       [exact (Hposts url H)|discriminate]). }
  destruct swaps as [|first rest].
  { injection Hend as <-. exists (map (Post pageSize) cs). split; [reflexivity|exact Hposts]. }
  rewrite notifyLoop_run in Hend. cbv zeta in Hend.
  cbn [data addEvents] in Hend. rewrite Hnone in Hend.
  set (att := attempted (CurrentTxHashes (data w)) (first :: rest)) in *.
  assert (Hnot : forall url, ~ In (Get url) (flat_map (notification []) att)).
  { intros url H. apply in_flat_map in H. destruct H as (s & _ & H).
    pose proof (notification_no_target s) as Hs.
    rewrite forallb_forall in Hs. specialize (Hs _ H). discriminate. }
  exists (map (Post pageSize) cs ++ flat_map (notification []) att)%list.
  split.
  - destruct (forallb returns att); injection Hend as <-;
      cbn [trace addEvents checkpointed]; now rewrite <- app_assoc.
  - intros url H. apply in_app_or in H. destruct H as [H|H].
    + exact (Hposts url H).
    + exact (Hnot url H).
Qed.

(** X6.  A swap that formats to the empty message (its timestamp does not
    parse) is pushed to no target, and all the same its hash goes into the
    list that becomes the dedup set. *)
Theorem skipped_swap_marked_processed (swap : Swap) (acc : list string)
  (w : World Config) :
  FormatSwap swap = Returns "" ->
  ~ In (TransactionHash swap) (CurrentTxHashes (data w)) ->
  notifyLoop [swap] acc w
  = Done (acc ++ [TransactionHash swap])%list
         (addEvents w [Detected (BlockNumber swap) (TransactionHash swap)]).
Proof.
  intros Hfmt Hunk. apply unknown_spec in Hunk.
  rewrite notifyLoop_run. cbv zeta. cbn [attempted]. rewrite Hunk.
  unfold returns. rewrite Hfmt.
  cbn [forallb flat_map map app]. unfold returns, notification.
  rewrite Hfmt. cbn. reflexivity.
Qed.

(** X7.  The dedup set is only read as it was when the pass began: a swap
    with an unknown hash that comes twice in the fetched sequence is
    notified twice, and its hash is put twice into the new set. *)
Theorem refetched_swap_notified_twice (swap : Swap) (acc : list string)
  (w : World Config) :
  ~ In (TransactionHash swap) (CurrentTxHashes (data w)) ->
  FormatSwap swap <> Panics ->
  notifyLoop [swap; swap] acc w
  = Done (acc ++ [TransactionHash swap; TransactionHash swap])%list
         (addEvents w (notification (BarkAPIURLs (data w)) swap
                       ++ notification (BarkAPIURLs (data w)) swap)).
Proof.
  intros Hunk Hok. apply unknown_spec in Hunk.
  assert (Hret : returns swap = true).
  { unfold returns. destruct (FormatSwap swap); [reflexivity|contradiction]. }
  rewrite notifyLoop_run. cbv zeta. cbn [attempted]. rewrite Hunk, Hret.
  cbn [forallb flat_map map]. rewrite Hret. cbn [andb].
  now rewrite app_nil_r.
Qed.

End MorePass.

(* ===================================================================== *)
(** ** More on the formatter *)
(* ===================================================================== *)

Section MoreFormatter.
Context {L : GoLibs}.

Lemma append_cons_nonempty (a b : string) (c : ascii) :
  (a ++ String c b)%string <> "".
Proof. destruct a; discriminate. Qed.

(** X8.  [FormatSwap] panics exactly when [amount0] or [amount1] does not
    parse, or when both parse and the volume (the amount paid times the
    price) is not a number. *)
Theorem FormatSwap_panics_iff (swap : Swap) :
  FormatSwap swap = Panics
  <-> SetString (Amount0 swap) = None
      \/ SetString (Amount1 swap) = None
      \/ exists a0 a1,
           SetString (Amount0 swap) = Some a0
           /\ SetString (Amount1 swap) = Some a1
           /\ Mul (if Sign a0 <? 0 then a1 else a0) (wbtcPrice swap) = None.
Proof.
  split.
  - intros Hpanic.
    destruct (SetString (Amount0 swap)) as [a0|] eqn:H0; [|now left].
    destruct (SetString (Amount1 swap)) as [a1|] eqn:H1; [|now right; left].
    right; right. exists a0, a1. repeat split.
    destruct (Mul (if Sign a0 <? 0 then a1 else a0) (wbtcPrice swap))
      as [vol|] eqn:Hm; [exfalso|reflexivity].
    destruct (Strconv.ParseInt (BlockTimestamp swap)) as [t e] eqn:Ht.
    revert Hpanic. unfold FormatSwap. rewrite H0, H1, Ht. cbn [deref rbind].
    pose proof (Quo_1e8 (if Sign a0 <? 0 then a1 else a0)) as Qin.
    pose proof (Quo_1e8 (if Sign a0 <? 0 then Neg a0 else Neg a1)) as Qout.
    pose proof (Quo_1e8 vol) as Qvol.
    destruct (Sign a0 <? 0); cbn [deref rbind]; rewrite Hm; cbn [deref rbind];
      destruct (Quo _ _) as [qin|] in Qin |- *; try congruence;
      destruct (Quo _ _) as [qout|] in Qout |- *; try congruence;
      destruct (Quo vol _) as [qvol|]; try congruence;
      cbn [deref rbind]; destruct e; discriminate.
  - intros [H0|[H1|(a0 & a1 & H0 & H1 & Hm)]].
    + now apply FormatSwap_nil_amount0.
    + now apply FormatSwap_nil_amount1.
    + unfold FormatSwap. rewrite H0, H1. cbn [deref rbind].
      destruct (Sign a0 <? 0); cbn [deref rbind]; rewrite Hm; reflexivity.
Qed.

(** X9.  When [FormatSwap] returns, its message is empty exactly when
    [blockTimestamp] does not parse as a base-10 int64. *)
Theorem empty_message_iff_bad_timestamp (swap : Swap) (message : string) :
  FormatSwap swap = Returns message ->
  (message = "" <-> snd (Strconv.ParseInt (BlockTimestamp swap)) <> None).
Proof.
  intros H. split.
  - intros ->. revert H. unfold FormatSwap.
    destruct (Strconv.ParseInt (BlockTimestamp swap)) as [t [e|]];
      [discriminate|].
    intros H Hbad.
    repeat match type of H with
           | rbind ?r _ = _ =>
               let x := fresh in
               destruct r as [x|]; cbn [rbind] in H; [|discriminate];
               try (destruct x as [[[? ?] ?] ?])
           end.
    injection H as H. cbn [String.append] in H.
    exact (append_cons_nonempty _ _ _ H).
  - intros Hbad.
    destruct (snd (Strconv.ParseInt (BlockTimestamp swap))) as [e|] eqn:He;
      [|contradiction].
    exact (FormatSwap_bad_timestamp swap message e H He).
Qed.

(** X10.  A [btcPrice] that does not parse is the same as none at all: the
    swap is formatted as the swap with an empty [btcPrice], at the price
    100000. *)
Theorem bad_price_is_no_price (swap : Swap) :
  Parse (BtcPrice swap) 10 = None ->
  FormatSwap swap
  = FormatSwap {| ID := ID swap; Sender := Sender swap;
                  Recipient := Recipient swap;
                  Amount0 := Amount0 swap; Amount1 := Amount1 swap;
                  SqrtPriceX96 := SqrtPriceX96 swap;
                  Liquidity := Liquidity swap; Tick := Tick swap;
                  BlockNumber := BlockNumber swap;
                  BlockTimestamp := BlockTimestamp swap;
                  TransactionHash := TransactionHash swap;
                  BtcPrice := "" |}.
Proof.
  intros Hbad. unfold FormatSwap, wbtcPrice. cbn [Amount0 Amount1 BtcPrice BlockTimestamp].
  rewrite Hbad. cbn [String.eqb].
  destruct (String.eqb (BtcPrice swap) ""); reflexivity.
Qed.

End MoreFormatter.

(* ===================================================================== *)
(** ** The state file, the watcher and the schedule *)
(* ===================================================================== *)

Section MoreState.
Context {L : GoLibs}.
Variable graphAPI : nat -> Z -> Response.


Lemma loadConfig_opened (w : World Config) (bytes : string) :
  file (disk w) = Some bytes ->
  loadConfig w
  = Done tt (mkWorld match decode bytes with
                     | Some c => c
                     | None => data w
                     end (disk w) (trace w)).
Proof.
  intros Hopen. unfold loadConfig, readFile, bind, put, ret. rewrite Hopen.
  destruct (decode bytes); [reflexivity|]. now destruct w.
Qed.

Lemma watchLoop_opened (Write : Z) (bytes : string) (received : list Received) :
  forall w : World Config,
  file (disk w) = Some bytes ->
  watchLoop Write received w
  = Done tt (mkWorld (if reloads Write received
                      then match decode bytes with
                           | Some c => c
                           | None => data w
                           end
                      else data w) (disk w) (trace w)).
Proof.
  induction received as [|item rest IH]; intros w Hopen.
  - cbn. unfold ret. now destruct w.
  - destruct item as [op| | |]; cbn [watchLoop reloads].
    + destruct (Z.land op Write =? Write); cbn [orb].
      * unfold bind. rewrite (loadConfig_opened w bytes Hopen).
        rewrite IH by exact Hopen. cbn [data disk trace].
        destruct (decode bytes); destruct (reloads Write rest); reflexivity.
      * apply IH, Hopen.
    + unfold ret. now destruct w.
    + apply IH, Hopen.
    + unfold ret. now destruct w.
Qed.

(** X12.  While the state file can be opened, [watchConfig] never writes to
    it and adds nothing to the trace; when an event with the Write bit
    arrives before a channel is closed, [configData] ends as the decoded
    file, or as it was when the file does not decode; without such an
    event it is not touched.  A watcher that could not be created or
    could not add the file does nothing. *)
Theorem watchConfig_reloads (Write : Z) (created added : bool)
  (received : list Received) (bytes : string) (w : World Config) :
  file (disk w) = Some bytes ->
  watchConfig Write created added received w
  = Done tt (mkWorld (if created && added && reloads Write received
                      then match decode bytes with
                           | Some c => c
                           | None => data w
                           end
                      else data w) (disk w) (trace w)).
Proof.
  intros Hopen. unfold watchConfig.
  destruct created; [destruct added|]; cbn [andb].
  - now apply watchLoop_opened.
  - unfold ret. now destruct w.
  - unfold ret. now destruct w.
Qed.

Lemma Run_graphJob (fuel : nat) (w : World Config) :
  Utils.Run (graphJob graphAPI fuel) w
  = match GraphTask graphAPI fuel w with
    | Done _ w' => Done tt w'
    | Crashed w' => Crashed w'
    | OutOfFuel => OutOfFuel
    end.
Proof.
  unfold Utils.Run, graphJob, Utils.WrapJob, bind. cbn [Utils.runner].
  destruct (GraphTask graphAPI fuel w) as [[err|] w'| |]; reflexivity.
Qed.

(** X13.  [Run] drops the error of [GraphTask], so a run that returns
    always lets the next one start; and over any number of runs one after
    the other, against a remote that honours the block filter, the block
    number read from [LastBlockNumber] never goes down and the targets
    never change. *)
Theorem ticks_never_lower_checkpoint (n fuel : nat) (w w' : World Config) :
  honoursFilter graphAPI ->
  ticks n (Utils.Run (graphJob graphAPI fuel)) w = Done tt w' ->
  blockNumberOf (LastBlockNumber (data w))
  <= blockNumberOf (LastBlockNumber (data w'))
  /\ BarkAPIURLs (data w') = BarkAPIURLs (data w).
Proof.
  intros Hfilter. revert w.
  induction n as [|n IH]; intros w Hrun.
  - injection Hrun as <-. split; [lia|reflexivity].
  - cbn [ticks] in Hrun. unfold bind in Hrun.
    rewrite Run_graphJob in Hrun.
    destruct (GraphTask graphAPI fuel w) as [r w1| |] eqn:Hpass;
      try discriminate.
    destruct (IH w1 Hrun) as [Hle Htargets].
    destruct (pass_checkpoint_cases graphAPI fuel w w1 r Hpass)
      as [Hsame|(page & first & Hpage & Hin & Hlast & Hkeep)].
    + rewrite Hsame in *. split; assumption.
    + pose proof (Hfilter _ _ _ Hpage _ Hin) as Hlt.
      rewrite Hlast in Hle. split; [lia|congruence].
Qed.

End MoreState.

(* ===================================================================== *)
(** ** The fetch against a remote that answers the query as written *)
(* ===================================================================== *)

Section Subgraph.

Local Abbreviation blk s := (blockNumberOf (BlockNumber s)).

Lemma descending_head (l : list Swap) :
  forall a, descending (a :: l) = true -> Forall (fun s => blk s <= blk a) l.
Proof.
  induction l as [|b l IH]; intros a Hd; [constructor|].
  cbn [descending] in Hd. apply andb_prop in Hd. destruct Hd as [Hba Hd].
  apply Z.leb_le in Hba. constructor; [exact Hba|].
  apply (Forall_impl _ (P := fun s => blk s <= blk b)); [intros; lia|].
  apply IH, Hd.
Qed.

Lemma descending_tail (a : Swap) (l : list Swap) :
  descending (a :: l) = true -> descending l = true.
Proof.
  destruct l as [|b l]; [reflexivity|]. cbn [descending].
  intros H. apply andb_prop in H. exact (proj2 H).
Qed.

Lemma descending_filter (f : Swap -> bool) (l : list Swap) :
  descending l = true -> descending (filter f l) = true.
Proof.
  induction l as [|a l IH]; intros Hd; [reflexivity|].
  pose proof (descending_head l a Hd) as Hhead.
  specialize (IH (descending_tail a l Hd)).
  cbn [filter]. destruct (f a); [|exact IH].
  destruct (filter f l) as [|b r] eqn:Hf; [reflexivity|].
  change (descending (a :: b :: r))
    with ((blk b <=? blk a) && descending (b :: r)).
  rewrite IH, andb_true_r. apply Z.leb_le.
  assert (Hin : In b l).
  { apply (proj1 (filter_In f b l)). rewrite Hf. now left. }
  rewrite Forall_forall in Hhead. exact (Hhead b Hin).
Qed.

Lemma lastBlock_cons (a : Swap) (q : list Swap) :
  q <> [] -> lastBlock (a :: q) = lastBlock q.
Proof.
  intros Hne. unfold lastBlock. cbn [rev].
  destruct (rev q) as [|s r] eqn:Hr; [|reflexivity].
  exfalso. apply Hne. apply (f_equal (@rev Swap)) in Hr.
  now rewrite rev_involutive in Hr.
Qed.

Lemma lastBlock_snoc (q : list Swap) (s : Swap) :
  lastBlock (q ++ [s]) = blk s.
Proof. unfold lastBlock. rewrite rev_unit. reflexivity. Qed.

Lemma Forall_skipn {A} (P : A -> Prop) (k : nat) (l : list A) :
  Forall P l -> Forall P (skipn k l).
Proof.
  intros H. rewrite <- (firstn_skipn k l) in H.
  apply Forall_app in H. exact (proj2 H).
Qed.

(** Past a prefix of a list sorted newest first, nothing is above the last
    block of the prefix. *)
Lemma beyond_prefix (l : list Swap) :
  descending l = true ->
  forall k, firstn k l <> [] ->
  Forall (fun s => blk s <= lastBlock (firstn k l)) (skipn k l).
Proof.
  induction l as [|a l IH]; intros Hd k Hne.
  - destruct k; contradiction.
  - destruct k as [|k]; [contradiction|].
    cbn [firstn skipn].
    destruct (firstn k l) as [|b q] eqn:Hq.
    + apply Forall_skipn. exact (descending_head l a Hd).
    + rewrite lastBlock_cons by discriminate. rewrite <- Hq.
      apply IH; [exact (descending_tail a l Hd)|]. rewrite Hq. discriminate.
Qed.

Lemma filter_above_none (m : Z) (r : list Swap) :
  Forall (fun s => blk s <= m) r -> filter (above m) r = [].
Proof.
  induction 1 as [|s r Hs _ IH]; [reflexivity|].
  cbn [filter]. unfold above at 1.
  destruct (Z.ltb_spec m (blk s)); [lia|exact IH].
Qed.

Lemma filter_above_above (c c' : Z) (l : list Swap) :
  c <= c' -> filter (above c') (filter (above c) l) = filter (above c') l.
Proof.
  intros Hle. induction l as [|a l IH]; [reflexivity|].
  cbn [filter]. destruct (above c a) eqn:Ha; cbn [filter]; rewrite IH;
    [reflexivity|].
  unfold above in *. destruct (Z.ltb_spec c' (blk a)); [|reflexivity].
  apply Z.ltb_ge in Ha. lia.
Qed.

(** The last element of a page is not above the last block of the page. *)
Lemma fewer_above_last (p : list Swap) :
  p <> [] ->
  (List.length (filter (above (lastBlock p)) p) < List.length p)%nat.
Proof.
  intros Hne. destruct (exists_last Hne) as (q & s & ->).
  rewrite lastBlock_snoc, filter_app, !length_app. cbn [filter].
  unfold above at 2. rewrite Z.ltb_irrefl. cbn [List.length].
  pose proof (filter_length_le (above (blk s)) q). lia.
Qed.

(** A page of swaps above the cursor ends above the cursor. *)
Lemma page_ends_above (c : Z) (l : list Swap) (k : nat) :
  firstn k (filter (above c) l) <> [] ->
  c < lastBlock (firstn k (filter (above c) l)).
Proof.
  intros Hne. destruct (exists_last Hne) as (q & s & Hq).
  rewrite Hq, lastBlock_snoc.
  assert (Hin : In s (filter (above c) l)).
  { rewrite <- (firstn_skipn k (filter (above c) l)), Hq.
    apply in_or_app. left. apply in_or_app. right. now left. }
  apply filter_In in Hin. apply Z.ltb_lt. exact (proj2 Hin).
Qed.

(** X14.  Against a remote that answers the query as it is written, from a
    history sorted newest first: when fewer than 50 swaps are above the
    checkpoint, [fetchSwaps] returns them after one request; otherwise it
    returns the 50 newest of them and then, a second time, those of the
    50 that are above the last block of that page, after two requests.
    The swaps older than the 50 newest are never fetched. *)
Theorem fetch_from_subgraph (history : list Swap) (fuel : nat)
  (w : World Config) :
  descending history = true ->
  (2 <= fuel)%nat ->
  let start := blockNumberOf (LastBlockNumber (data w)) in
  let page := firstn 50 (filter (above start) history) in
  fetchSwaps (subgraph history) fuel w
  = if Z.of_nat (List.length page) <? 50
    then Done (page, None) (addEvents w [Post 50 start])
    else Done ((page ++ filter (above (lastBlock page)) page)%list, None)
              (addEvents w [Post 50 start; Post 50 (lastBlock page)]).
Proof.
  intros Hd Hfuel start page.
  destruct fuel as [|[|fuel]]; [lia|lia|].
  rewrite fetchSwaps_eq. fold start.
  rewrite fetchLoop_step. cbv zeta. unfold subgraph at 1. fold page.
  destruct (Z.eqb_spec (Z.of_nat (List.length page)) 0) as [H0|H0].
  { destruct (Z.ltb_spec (Z.of_nat (List.length page)) 50); [|lia].
    destruct page; [reflexivity|discriminate]. }
  change pageSize with 50.
  destruct (Z.ltb_spec (Z.of_nat (List.length page)) 50) as [Hshort|Hfull];
    [reflexivity|].
  assert (Hne : page <> []) by (intros E; rewrite E in H0; now apply H0).
  set (again := filter (above (lastBlock page)) page).
  assert (Hagain : firstn 50 (filter (above (lastBlock page)) history) = again).
  { rewrite <- (filter_above_above start (lastBlock page) history)
      by (pose proof (page_ends_above start history 50 Hne); fold page in H; lia).
    pose proof (descending_filter (above start) history Hd) as Hsorted.
    pose proof (beyond_prefix _ Hsorted 50 Hne) as Hbeyond. fold page in Hbeyond.
    rewrite <- (firstn_skipn 50 (filter (above start) history)) at 1.
    fold page. rewrite filter_app, (filter_above_none _ _ Hbeyond), app_nil_r.
    fold again. apply firstn_all2.
    pose proof (fewer_above_last page Hne) as Hfewer. fold again in Hfewer.
    assert (List.length page <= 50)%nat by apply firstn_le_length.
    lia. }
  rewrite fetchLoop_step. cbv zeta. unfold subgraph at 1. rewrite Hagain.
  cbn [app]. rewrite addEvents_app. cbn [app].
  pose proof (fewer_above_last page Hne) as Hfewer. fold again in Hfewer.
  assert (List.length page <= 50)%nat by apply firstn_le_length.
  destruct (Z.eqb_spec (Z.of_nat (List.length again)) 0) as [Hz|Hz].
  { destruct again; [|discriminate]. now rewrite app_nil_r. }
  destruct (Z.ltb_spec (Z.of_nat (List.length again)) pageSize) as [_|Hbig];
    [reflexivity|unfold pageSize in Hbig; lia].
Qed.

End Subgraph.

(* ===================================================================== *)
(** ** More on the older variant and on endless pages *)
(* ===================================================================== *)

Section MoreLegacy.
Context {L : GoLibs}.
Variable encodeStorage : Legacy.Storage -> string.
Variable graphAPI : nat -> Z -> Response.

Lemma legacy_fetchSwaps_eq (fuel : nat) (w : World Legacy.Storage) :
  Legacy.fetchSwaps graphAPI fuel w
  = Legacy.fetchLoop graphAPI fuel
      (legacyCursor (Legacy.LastBlockNumber (data w))) [] w.
Proof.
  unfold Legacy.fetchSwaps, Legacy.parseLastBlockNumber, legacyCursor, bind, get.
  destruct (Strconv.Atoi (Legacy.LastBlockNumber (data w))) as [n [e|]];
    reflexivity.
Qed.

Lemma legacy_GraphTask_error (fuel : nat) (w w1 : World Legacy.Storage)
  (swaps : list Swap) (err : error) :
  Legacy.fetchSwaps graphAPI fuel w = Done (swaps, Some err) w1 ->
  Legacy.GraphTask encodeStorage graphAPI fuel w
  = Done (Some err) (addEvents w1 [Sleep 3]).
Proof.
  intros Hfetch. unfold Legacy.GraphTask. unfold bind at 1. rewrite Hfetch.
  reflexivity.
Qed.

(** X15.  In the older variant too a fetch that returns an error returns
    no swaps with it, and the pass returns that error with [storageData]
    and the state file as they were. *)
Theorem legacy_fetch_error_leaves_state (fuel : nat)
  (w w1 : World Legacy.Storage) (swaps : list Swap) (err : error) :
  Legacy.fetchSwaps graphAPI fuel w = Done (swaps, Some err) w1 ->
  swaps = []
  /\ exists w',
       Legacy.GraphTask encodeStorage graphAPI fuel w = Done (Some err) w'
       /\ data w' = data w /\ disk w' = disk w.
Proof.
  intros Hfetch.
  rewrite (legacy_GraphTask_error _ _ _ _ _ Hfetch).
  rewrite legacy_fetchSwaps_eq in Hfetch.
  pose proof (legacy_fetchLoop_frame graphAPI fuel
                (legacyCursor (Legacy.LastBlockNumber (data w))) [] w) as F.
  rewrite Hfetch in F. destruct F as [[cs ->] Hnil].
  split; [apply Hnil; discriminate|].
  eexists. split; [reflexivity|]. split; reflexivity.
Qed.

(** X16.  In the older variant a page with records whose last block number
    is not a number ends the pass with that error: nothing of the page is
    notified or recorded, where [graph_task.go] goes on with the number
    [strconv.Atoi] returned. *)
Theorem legacy_bad_block_number_aborts (fuel : nat) (w : World Legacy.Storage)
  (swaps : list Swap) (n : Z) (e : Strconv.NumError) :
  let start := legacyCursor (Legacy.LastBlockNumber (data w)) in
  graphAPI (posts (trace w)) start = Page swaps ->
  swaps <> [] ->
  Strconv.Atoi (Legacy.lastBlockNumber swaps) = (n, Some e) ->
  Legacy.GraphTask encodeStorage graphAPI (S fuel) w
  = Done (Some (NumError e (Legacy.lastBlockNumber swaps)))
         (addEvents w [Post 50 start; Sleep 3]).
Proof.
  intros start Hpage Hne Hbad.
  assert (Hfetch : Legacy.fetchSwaps graphAPI (S fuel) w
                   = Done ([], Some (NumError e (Legacy.lastBlockNumber swaps)))
                          (addEvents w [Post pageSize start])).
  { rewrite legacy_fetchSwaps_eq. fold start.
    rewrite legacy_fetchLoop_step, Hpage. cbv zeta.
    destruct swaps as [|s swaps]; [contradiction|].
    rewrite Hbad. reflexivity. }
  rewrite (legacy_GraphTask_error _ _ _ _ _ Hfetch).
  now rewrite addEvents_app.
Qed.

(** X17.  The older variant paginates like [graph_task.go] as long as the
    block numbers it reads are numbers: served full pages and then a first
    short one, it returns them all in order, after one POST per page. *)
Theorem legacy_pagination (fuel : nat) (w : World Legacy.Storage)
  (pages : list (list Swap)) (final : list Swap) :
  ServesLegacy graphAPI (posts (trace w))
    (legacyCursor (Legacy.LastBlockNumber (data w))) pages final ->
  (List.length pages < fuel)%nat ->
  exists cs,
    Legacy.fetchSwaps graphAPI fuel w
    = Done ((List.concat pages ++ final)%list, None)
           (addEvents w (map (Post 50) cs))
    /\ List.length cs = S (List.length pages).
Proof.
  intros Hserves Hfuel. rewrite legacy_fetchSwaps_eq.
  destruct (legacy_fetchLoop_serves graphAPI _ _ _ _ Hserves [] w eq_refl)
    as [Hdone _].
  exact (Hdone fuel Hfuel).
Qed.

End MoreLegacy.

Section Endless.
Context {L : GoLibs}.
Variable graphAPI : nat -> Z -> Response.

(** X18.  Nothing bounds the loop of [fetchSwaps] but a short page: against
    a remote that answers every request with 50 records or more, neither
    the fetch nor the pass returns, whatever the number of requests
    allowed. *)
Theorem full_pages_never_end (fuel : nat) (w : World Config) :
  (forall n c, exists page,
      graphAPI n c = Page page /\ pageSize <= Z.of_nat (List.length page)) ->
  fetchSwaps graphAPI fuel w = OutOfFuel
  /\ GraphTask graphAPI fuel w = OutOfFuel.
Proof.
  intros Hfull.
  assert (Hfetch : fetchSwaps graphAPI fuel w = OutOfFuel).
  { rewrite fetchSwaps_eq.
    now apply fetch_never_returns_on_full_pages. }
  split; [exact Hfetch|]. now rewrite GraphTask_eq, Hfetch.
Qed.

End Endless.

(* ===================================================================== *)
(** ** The checkpoint, the next pass and the reload *)
(* ===================================================================== *)

Section AfterCheckpoint.
Context {L : GoLibs}.
Variable graphAPI : nat -> Z -> Response.

(** The world a pass that fetched swaps returns in. *)
Lemma pass_checkpointed (fuel : nat) (w w1 w' : World Config)
  (first : Swap) (rest : list Swap) (r : option error) :
  fetchSwaps graphAPI fuel w = Done (first :: rest, None) w1 ->
  GraphTask graphAPI fuel w = Done r w' ->
  exists w2,
    data w2 = data w /\ disk w2 = disk w
    /\ w' = checkpointed first
              (map TransactionHash
                   (filter (unknown (CurrentTxHashes (data w))) (first :: rest)))
              w2.
Proof.
  intros Hfetch Hpass.
  pose proof (fetchSwaps_frame graphAPI fuel w) as F.
  rewrite Hfetch in F. destruct F as [[cs ->] _].
  rewrite GraphTask_eq, Hfetch, notifyLoop_run in Hpass. cbv zeta in Hpass.
  cbn [data addEvents] in Hpass.
  destruct (forallb returns
              (attempted (CurrentTxHashes (data w)) (first :: rest))) eqn:Hall;
    [|discriminate].
  rewrite (attempted_all _ _ Hall) in Hpass. injection Hpass as _ <-.
  eexists. split; [|split; [|reflexivity]]; reflexivity.
Qed.

(** X20.  After a pass that fetched swaps, no hash of the new dedup set was
    in the old one: the set is the hashes notified in this pass only, and
    every hash the previous pass had recorded is forgotten. *)
Theorem new_dedup_set_forgets_old (fuel : nat) (w w1 w' : World Config)
  (first : Swap) (rest : list Swap) (r : option error) :
  fetchSwaps graphAPI fuel w = Done (first :: rest, None) w1 ->
  GraphTask graphAPI fuel w = Done r w' ->
  forall h, In h (CurrentTxHashes (data w')) ->
            ~ In h (CurrentTxHashes (data w)).
Proof.
  intros Hfetch Hpass h Hin.
  destruct (pass_checkpointed _ _ _ _ _ _ _ Hfetch Hpass) as (w2 & _ & _ & ->).
  cbn [checkpointed data CurrentTxHashes] in Hin.
  apply in_map_iff in Hin. destruct Hin as (s & <- & Hs).
  apply filter_In in Hs. apply unknown_spec. exact (proj2 Hs).
Qed.

(** X21.  The reload that the save of a pass sets off changes nothing: when
    the file could be created and the library decodes what it encoded, an
    event with the Write bit after the pass leaves the world as the pass
    left it. *)
Theorem reload_after_checkpoint_is_noop (Write op : Z) (fuel : nat)
  (w w1 w' : World Config) (first : Swap) (rest : list Swap)
  (r : option error) :
  fetchSwaps graphAPI fuel w = Done (first :: rest, None) w1 ->
  GraphTask graphAPI fuel w = Done r w' ->
  createOk (disk w) = true ->
  decode (encode (data w')) = Some (data w') ->
  Z.land op Write = Write ->
  watchConfig Write true true [FsEvent op] w' = Done tt w'.
Proof.
  intros Hfetch Hpass Hcreate Hround Hbit.
  destruct (pass_checkpointed _ _ _ _ _ _ _ Hfetch Hpass)
    as (w2 & Hdata & Hdisk & Hw').
  assert (Hfile : file (disk w') = Some (encode (data w'))).
  { rewrite Hw'. cbn [checkpointed data disk]. unfold saved.
    rewrite Hdisk, Hcreate. reflexivity. }
  unfold watchConfig. rewrite (watchLoop_opened Write _ [FsEvent op] w' Hfile).
  cbn [reloads orb]. rewrite Hbit, Z.eqb_refl, Hround.
  now destruct w'.
Qed.

(** X22.  When the save of a pass failed, the checkpoint lives in memory
    only: a reload after the pass puts [configData] back to what the file
    holds, the old checkpoint. *)
Theorem reload_after_failed_save_rolls_back (Write op : Z) (fuel : nat)
  (w w1 w' : World Config) (first : Swap) (rest : list Swap)
  (r : option error) (bytes : string) (old : Config) :
  fetchSwaps graphAPI fuel w = Done (first :: rest, None) w1 ->
  GraphTask graphAPI fuel w = Done r w' ->
  createOk (disk w) = false ->
  file (disk w) = Some bytes ->
  decode bytes = Some old ->
  Z.land op Write = Write ->
  LastBlockNumber (data w') = BlockNumber first
  /\ watchConfig Write true true [FsEvent op] w'
     = Done tt (mkWorld old (disk w) (trace w')).
Proof.
  intros Hfetch Hpass Hcreate Hopen Hdecode Hbit.
  destruct (pass_checkpointed _ _ _ _ _ _ _ Hfetch Hpass)
    as (w2 & Hdata & Hdisk & Hw').
  assert (Hkept : disk w' = disk w).
  { rewrite Hw'. cbn [checkpointed disk]. unfold saved.
    now rewrite Hdisk, Hcreate. }
  split; [rewrite Hw'; reflexivity|].
  assert (Hfile : file (disk w') = Some bytes) by now rewrite Hkept.
  unfold watchConfig. rewrite (watchLoop_opened Write _ [FsEvent op] w' Hfile).
  cbn [reloads orb]. rewrite Hbit, Z.eqb_refl, Hdecode, Hkept.
  reflexivity.
Qed.

End AfterCheckpoint.

(* ===================================================================== *)
(** ** The model on the example data *)
(* ===================================================================== *)

Module Runs.

Import Sample Examples.

(** The remote of the examples honours the block filter. *)
Lemma remoteWith_honoursFilter (history : list Swap) :
  honoursFilter (remoteWith history).
Proof.
  intros n c swaps [= <-] s Hin.
  apply filter_In in Hin. destruct Hin as [_ Hlt].
  now apply Z.ltb_lt.
Qed.



Lemma fetch_error_leaves_state_witness :
  exists w',
    GraphTask down 3 fresh = Done (Some (RequestError "connection refused")) w'
    /\ data w' = data fresh /\ disk w' = disk fresh.
Proof.
  destruct (fetch_error_leaves_state (L:=libs) down 3 fresh _ [] _
              ltac:(vm_compute; reflexivity))
    as (_ & w' & Hpass & Hdata & Hdisk & _).
  exists w'. auto.
Defined.



Lemma lastBlockNumber_monotone_witness :
  exists w',
    GraphTask remote 3 fresh = Done None w'
    /\ blockNumberOf (LastBlockNumber (data fresh))
       <= blockNumberOf (LastBlockNumber (data w')).
Proof.
  eexists. split; [vm_compute; reflexivity|].
  apply (lastBlockNumber_monotone (L:=libs) remote 3 fresh _ None
           (remoteWith_honoursFilter _)).
  vm_compute; reflexivity.
Defined.

Lemma known_hash_not_renotified_witness :
  exists notified w',
    (GraphTask remote 3 fresh = Done None w'
     \/ GraphTask remote 3 fresh = Crashed w')
    /\ trace w'
       = ([Post 50 21612681]
          ++ flat_map (notification (BarkAPIURLs defaultConfig)) notified)%list
    /\ (forall s, In s notified ->
          In s [swapNew; swapSeen]
          /\ ~ In (TransactionHash s) (CurrentTxHashes defaultConfig))
    /\ (forall b h, In h (CurrentTxHashes defaultConfig) ->
          ~ In (Detected b h)
               (flat_map (notification (BarkAPIURLs defaultConfig)) notified)).
Proof.
  exact (known_hash_not_renotified (L:=libs) remote 3 fresh
           (addEvents fresh [Post 50 21612681]) [swapNew; swapSeen]
           ltac:(vm_compute; reflexivity)).
Defined.

(** C4: a swap with a negative [amount0] and a timestamp that does not
    parse is formatted to the empty string, which shows no token at all. *)
Lemma bad_timestamp_reports_nothing :
  exists a0,
    SetString (Amount0 swapBadTime) = Some a0 /\ Sign a0 < 0
    /\ FormatSwap swapBadTime = Returns ""
    /\ forall a1, ~ reports "" "WBTC" "UNIBTC" a1 (Neg a0).
Proof.
  eexists. split; [vm_compute; reflexivity|].
  split; [reflexivity|]. split; [vm_compute; reflexivity|].
  intros a1. apply reports_nonempty.
Qed.

Lemma FormatSwap_direction_witness :
  (exists message,
     FormatSwap swapNew = Returns message
     /\ reports message "WBTC" "UNIBTC" (200000000 # 1)%Q (100000000 # 1)%Q)
  /\ (exists message,
        FormatSwap swapSeen = Returns message
        /\ reports message "UNIBTC" "WBTC" (300000000 # 1)%Q (100000000 # 1)%Q).
Proof.
  split.
  - apply (proj1 (FormatSwap_direction (L:=libs) swapNew
                    (-100000000 # 1)%Q (200000000 # 1)%Q 1700000000
                    ltac:(vm_compute; reflexivity)
                    ltac:(vm_compute; reflexivity)
                    ltac:(vm_compute; reflexivity)));
      [reflexivity|discriminate].
  - apply (proj2 (FormatSwap_direction (L:=libs) swapSeen
                    (300000000 # 1)%Q (-100000000 # 1)%Q 1699990000
                    ltac:(vm_compute; reflexivity)
                    ltac:(vm_compute; reflexivity)
                    ltac:(vm_compute; reflexivity)));
      [discriminate|discriminate].
Defined.

(** C5.  A swap whose [amount0] is not a number: [SetString] returns nil,
    [FormatSwap] panics on the first use of it, and the panic goes through
    [sendNotification] and [GraphTask], which ends without a checkpoint;
    a timestamp that is not a number is handled and gives the empty
    message. *)
Theorem malformed_amount_panics :
  SetString (Amount0 swapBadAmount) = None
  /\ FormatSwap swapBadAmount = Panics
  /\ sendNotification swapBadAmount fresh
     = Crashed (addEvents fresh [Detected "21612701" "0xbbb2"])
  /\ GraphTask (remoteWith [swapBadAmount; swapNew]) 3 fresh
     = Crashed (addEvents fresh [Post 50 21612681; Detected "21612701" "0xbbb2"])
  /\ FormatSwap swapBadTime = Returns "".
Proof. repeat split; vm_compute; reflexivity. Qed.



Lemma pagination_stops_at_first_short_page_witness :
  fetchSwaps pagedBlocks 2 fresh
  = Done ((firstn 50 sixty ++ [swapSeen])%list, None)
         (addEvents fresh [Post 50 21612681; Post 50 21612710]).
Proof.
  apply (proj2 (pagination_stops_at_first_short_page pagedBlocks 2 fresh
                  (addEvents fresh [Post 50 21612681; Post 50 21612710])
                  (firstn 50 sixty ++ [swapSeen])%list)).
  exists [(firstn 49 sixty ++ [swapAt 10])%list], [swapSeen],
         [21612681; 21612710].
  split.
  - apply (paginated_full pagedBlocks 0 21612681 (firstn 49 sixty) (swapAt 10)
             [] [swapSeen] [21612710]);
      [vm_compute; reflexivity|vm_compute; discriminate|].
    apply (paginated_final pagedBlocks 1 (blockNumberOf (BlockNumber (swapAt 10)))
             [swapSeen]); [reflexivity|reflexivity].
  - split; [cbn; lia|]. split; vm_compute; reflexivity.
Defined.



Lemma empty_fetch_is_noop_witness :
  GraphTask (remoteWith []) 3 fresh
  = Done None (addEvents fresh [Post 50 21612681]).
Proof.
  apply (empty_fetch_is_noop (L:=libs) (remoteWith []) 3 fresh
           (addEvents fresh [Post 50 21612681])).
  vm_compute; reflexivity.
Defined.

Lemma panic_leaves_checkpoint_witness :
  exists w',
    GraphTask (remoteWith [swapBadAmount; swapNew]) 3 fresh = Crashed w'
    /\ data w' = data fresh /\ disk w' = disk fresh.
Proof.
  eexists. split; [vm_compute; reflexivity|].
  destruct (panic_leaves_checkpoint (L:=libs)
              (remoteWith [swapBadAmount; swapNew]) 3 fresh _
              ltac:(vm_compute; reflexivity))
    as (Hdata & Hdisk & _).
  split; assumption.
Defined.

Lemma no_target_no_get_witness :
  exists w' evs,
    GraphTask remote 3 untargeted = Done None w'
    /\ trace w' = (trace untargeted ++ evs)%list
    /\ forall url, ~ In (Get url) evs.
Proof.
  destruct (no_target_no_get (L:=libs) remote 3 untargeted _ eq_refl
              ltac:(vm_compute; reflexivity))
    as (evs & Htrace & Hnone).
  eexists _, evs. split; [vm_compute; reflexivity|].
  split; assumption.
Defined.

Lemma skipped_swap_marked_processed_witness :
  notifyLoop [swapBadTime] [] fresh
  = Done ["0xddd4"] (addEvents fresh [Detected "21612702" "0xddd4"]).
Proof.
  apply (skipped_swap_marked_processed (L:=libs) swapBadTime [] fresh).
  - vm_compute; reflexivity.
  - vm_compute. intros [H|[]]. discriminate.
Defined.

Lemma refetched_swap_notified_twice_witness :
  notifyLoop [swapNew; swapNew] [] fresh
  = Done ["0xaaa1"; "0xaaa1"]
         (addEvents fresh
            (notification (BarkAPIURLs defaultConfig) swapNew
             ++ notification (BarkAPIURLs defaultConfig) swapNew)).
Proof.
  apply (refetched_swap_notified_twice (L:=libs) swapNew [] fresh).
  - vm_compute. intros [H|[]]. discriminate.
  - vm_compute. discriminate.
Defined.

Lemma empty_message_iff_bad_timestamp_witness :
  ("" = "" <-> snd (Strconv.ParseInt (BlockTimestamp swapBadTime)) <> None).
Proof.
  apply (empty_message_iff_bad_timestamp (L:=libs) swapBadTime "").
  vm_compute; reflexivity.
Defined.

Lemma bad_price_is_no_price_witness :
  FormatSwap swapBadPrice
  = Returns "2023-11-15 06:13:56  2.00000 WBTC -> 1.00000 UNIBTC Vol: $200000.00".
Proof.
  rewrite (bad_price_is_no_price (L:=libs) swapBadPrice
             ltac:(vm_compute; reflexivity)).
  vm_compute; reflexivity.
Defined.


Lemma watchConfig_reloads_witness :
  watchConfig 2 true true [FsEvent 16; FsEvent 2; EventsClosed; FsEvent 2]
    (mkWorld zeroConfig (disk fresh) [])
  = Done tt fresh.
Proof.
  rewrite (watchConfig_reloads (L:=libs) 2 true true
             [FsEvent 16; FsEvent 2; EventsClosed; FsEvent 2]
             (encodeConfig defaultConfig)
             (mkWorld zeroConfig (disk fresh) []) eq_refl).
  vm_compute; reflexivity.
Defined.

Lemma ticks_never_lower_checkpoint_witness :
  exists w',
    ticks 2 (Utils.Run (graphJob remote 3)) fresh = Done tt w'
    /\ blockNumberOf (LastBlockNumber (data fresh))
       <= blockNumberOf (LastBlockNumber (data w')).
Proof.
  eexists. split; [vm_compute; reflexivity|].
  apply (ticks_never_lower_checkpoint (L:=libs) remote 2 3 fresh _
           (remoteWith_honoursFilter _)).
  vm_compute; reflexivity.
Defined.

Lemma fetch_from_subgraph_witness :
  fetchSwaps (subgraph sixty) 2 fresh
  = Done ((firstn 50 sixty ++ firstn 49 sixty)%list, None)
         (addEvents fresh [Post 50 21612681; Post 50 21612710]).
Proof.
  rewrite (fetch_from_subgraph sixty 2 fresh
             ltac:(vm_compute; reflexivity) (le_n 2)).
  vm_compute; reflexivity.
Defined.

Lemma legacy_fetch_error_leaves_state_witness :
  exists w',
    Legacy.GraphTask encodeStorage down 3 legacyFresh
    = Done (Some (RequestError "connection refused")) w'
    /\ data w' = data legacyFresh /\ disk w' = disk legacyFresh.
Proof.
  destruct (legacy_fetch_error_leaves_state (L:=libs) encodeStorage down 3
              legacyFresh _ [] _ ltac:(vm_compute; reflexivity))
    as (_ & w' & Hpass & Hdata & Hdisk).
  exists w'. auto.
Defined.

Lemma legacy_bad_block_number_aborts_witness :
  Legacy.GraphTask encodeStorage (repeating [swapBadBlock]) 1 legacyFresh
  = Done (Some (NumError Strconv.ErrSyntax "latest"))
         (addEvents legacyFresh [Post 50 21612681; Sleep 3]).
Proof.
  apply (legacy_bad_block_number_aborts (L:=libs) encodeStorage
           (repeating [swapBadBlock]) 0 legacyFresh [swapBadBlock] 0
           Strconv.ErrSyntax).
  - reflexivity.
  - discriminate.
  - vm_compute; reflexivity.
Defined.

Lemma legacy_pagination_witness :
  exists cs,
    Legacy.fetchSwaps paged 3 legacyFresh
    = Done ((fullPage ++ [swapSeen])%list, None)
           (addEvents legacyFresh (map (Post 50) cs))
    /\ List.length cs = 2%nat.
Proof.
  apply (legacy_pagination paged 3 legacyFresh [fullPage] [swapSeen]).
  - apply (legacy_full paged _ _ _ _ _ 21612700).
    + reflexivity.
    + vm_compute; discriminate.
    + vm_compute; reflexivity.
    + apply (legacy_final paged _ _ _ 21612690).
      * reflexivity.
      * split; reflexivity.
      * vm_compute; reflexivity.
  - cbn; lia.
Defined.

Lemma full_pages_never_end_witness :
  fetchSwaps (repeating fullPage) 1000 fresh = OutOfFuel
  /\ GraphTask (repeating fullPage) 1000 fresh = OutOfFuel.
Proof.
  apply (full_pages_never_end (L:=libs) (repeating fullPage) 1000 fresh).
  intros n c. exists fullPage. split; [reflexivity|vm_compute; discriminate].
Defined.


Lemma new_dedup_set_forgets_old_witness :
  exists w',
    GraphTask remote 3 fresh = Done None w'
    /\ forall h, In h (CurrentTxHashes (data w')) ->
                 ~ In h (CurrentTxHashes (data fresh)).
Proof.
  eexists. split; [vm_compute; reflexivity|].
  apply (new_dedup_set_forgets_old (L:=libs) remote 3 fresh _ _
           swapNew [swapSeen] None
           ltac:(vm_compute; reflexivity) ltac:(vm_compute; reflexivity)).
Defined.

Lemma reload_after_checkpoint_is_noop_witness :
  exists w',
    GraphTask remote 3 fresh = Done None w'
    /\ watchConfig 2 true true [FsEvent 2] w' = Done tt w'.
Proof.
  eexists. split; [vm_compute; reflexivity|].
  apply (reload_after_checkpoint_is_noop (L:=libs) remote 2 2 3 fresh _ _
           swapNew [swapSeen] None
           ltac:(vm_compute; reflexivity) ltac:(vm_compute; reflexivity)
           eq_refl ltac:(vm_compute; reflexivity) eq_refl).
Defined.

Lemma reload_after_failed_save_rolls_back_witness :
  exists w',
    GraphTask remote 3 readOnly = Done None w'
    /\ LastBlockNumber (data w') = "21612700"
    /\ watchConfig 2 true true [FsEvent 2] w'
       = Done tt (mkWorld defaultConfig (disk readOnly) (trace w')).
Proof.
  eexists. split; [vm_compute; reflexivity|].
  apply (reload_after_failed_save_rolls_back (L:=libs) remote 2 2 3 readOnly
           _ _ swapNew [swapSeen] None (encodeConfig defaultConfig)
           defaultConfig
           ltac:(vm_compute; reflexivity) ltac:(vm_compute; reflexivity)
           eq_refl eq_refl ltac:(vm_compute; reflexivity) eq_refl).
Defined.

Lemma contains_true_iff_witness :
  contains (CurrentTxHashes defaultConfig) (TransactionHash swapSeen) = true.
Proof.
  apply (proj2 (contains_true_iff (CurrentTxHashes defaultConfig)
                  (TransactionHash swapSeen))).
  left. reflexivity.
Defined.

Lemma fetch_only_posts_witness :
  exists cs,
    trace (addEvents fresh [Post 50 21612681])
    = (trace fresh ++ map (Post 50) (21612681 :: cs))%list
    /\ (List.length cs < 3)%nat.
Proof.
  destruct (proj2 (fetch_only_posts remote 3 fresh)
              ([swapNew; swapSeen], None) (addEvents fresh [Post 50 21612681])
              ltac:(vm_compute; reflexivity))
    as (_ & _ & cs & Htrace & Hlen).
  exists cs. split; assumption.
Defined.

Lemma FormatSwap_panics_iff_witness :
  FormatSwap swapBadAmount = Panics.
Proof.
  apply (proj2 (FormatSwap_panics_iff (L:=libs) swapBadAmount)).
  left. vm_compute; reflexivity.
Defined.

End Runs.
